(** * zod-to-vertex-schema: the reverse transformer [vertexSchemaToZod]
      (Vertex AI schema -> Zod validator) and the properties its
      specification states about it.

    The development is organised as follows.
    - [Js]  : the JavaScript values a validator is run on, objects as
              ordered key/value sequences, and the exception discipline.
    - [SchemaType] and [VertexSchema], from [vertex-schema.ts].
    - [Zod] : the part of the Zod library the transformers call: schema
              nodes, their builders ([z.string()], [.min], [.describe],
              ...) and the verdict of [safeParse].
    - [vertex-schema-to-zod.ts], function by function.
    - the forward transformer [zodToVertexSchema].
    - the theorems, one group per specified property. *)

From Stdlib Require Import List String Ascii Bool Arith ZArith QArith Lia.
Import ListNotations.
Local Open Scope string_scope.
Local Open Scope list_scope.

Set Implicit Arguments.

(* ===================================================================== *)
(** ** JavaScript values and exceptions *)
(* ===================================================================== *)

Module Js.

(** A function either returns a value or throws [new Error(message)]. *)
Inductive Result (A : Type) : Type :=
| Ok (value : A)
| Throw (message : string).
Arguments Ok {A} value.
Arguments Throw {A} message.

Definition bind {A B} (r : Result A) (k : A -> Result B) : Result B :=
  match r with
  | Ok a => k a
  | Throw m => Throw m
  end.

Definition isOk {A} (r : Result A) : bool :=
  match r with Ok _ => true | Throw _ => false end.

(** [xs.map(f)] where [f] may throw: elements are converted left to
    right and the first exception aborts the whole map. *)
Section MapThrow.
Context {A B : Type} (f : A -> Result B).
Fixpoint mapThrow (xs : list A) : Result (list B) :=
  match xs with
  | [] => Ok []
  | x :: rest =>
      match f x with
      | Throw m => Throw m
      | Ok y =>
          match mapThrow rest with
          | Throw m => Throw m
          | Ok ys => Ok (y :: ys)
          end
      end
  end.
End MapThrow.

(** The data handed to [safeParse].  Numbers are the finite ones, as
    rationals; [NaN] and the infinities are outside the model.  An object
    [VObj] is a plain object (its prototype is [Object.prototype]), given
    by its own enumerable string keys in [Object.keys] order.  Reading a
    key a plain object does not own falls through to [Object.prototype]
    and can yield one of its methods ([VFunction], any function value) or,
    under ["__proto__"], [Object.prototype] itself ([VObjectPrototype]). *)
Unset Elimination Schemes.
Inductive Value : Type :=
| VUndefined
| VNull
| VBool (b : bool)
| VNum (n : Q)
| VStr (s : string)
| VArr (elements : list Value)
| VObj (fields : list (string * Value))
| VFunction
| VObjectPrototype.
Set Elimination Schemes.

(** The own property [key] of an object held as an association list. *)
Fixpoint get {A} (fields : list (string * A)) (key : string) : option A :=
  match fields with
  | [] => None
  | (k, v) :: rest => if String.eqb k key then Some v else get rest key
  end.

(** Writing the own property [key]: an existing key keeps its position, a
    new key is appended. *)
Fixpoint set {A} (fields : list (string * A)) (key : string) (v : A)
  : list (string * A) :=
  match fields with
  | [] => [(key, v)]
  | (k, w) :: rest =>
      if String.eqb k key then (k, v) :: rest else (k, w) :: set rest key v
  end.

Definition keys {A} (fields : list (string * A)) : list string :=
  map fst fields.

(** [arr.includes(key)] on an array of strings. *)
Definition includes (arr : list string) (key : string) : bool :=
  existsb (String.eqb key) arr.

(** Truthiness of an optional string: [undefined] and [''] are falsy. *)
Definition truthy (s : option string) : bool :=
  match s with
  | Some d => negb (String.eqb d EmptyString)
  | None => false
  end.

End Js.
Import Js.

Declare Scope js_scope.
Notation "x <- r ;; k" := (Js.bind r (fun x => k))
  (at level 61, r at next level, right associativity) : js_scope.
Local Open Scope js_scope.

(* ===================================================================== *)
(** ** vertex-schema.ts *)
(* ===================================================================== *)

Inductive SchemaType : Type :=
| STRING | NUMBER | INTEGER | BOOLEAN | ARRAY | OBJECT.

Unset Elimination Schemes.
(** [interface VertexSchema]: every field is optional ([None] is
    [undefined]); [type] is a [SchemaType] or absent, as the interface
    declares.  [properties] is the object in its own key order. *)
Inductive VertexSchema : Type := mkVertexSchema {
  type : option SchemaType;
  format : option string;
  description : option string;
  nullable : option bool;
  items : option VertexSchema;
  enum : option (list string);
  properties : option (list (string * VertexSchema));
  required : option (list string);
  example : option Value;
  propertyOrdering : option (list string);
  anyOf : option (list VertexSchema);
  minItems : option Q;
  maxItems : option Q;
  minimum : option Q;
  maximum : option Q
}.
Set Elimination Schemes.

(* ===================================================================== *)
(** ** The Zod library, as far as the transformers use it *)
(* ===================================================================== *)

Module Zod.

(** Entries of [ZodString]'s [_def.checks].  Checks that have no Vertex
    counterpart (regex, email, length, ...) are kept by their [kind] and
    their test on the string. *)
Inductive StringCheck : Type :=
| CkDatetime
| CkDate
| CkOtherString (kind : string) (test : string -> bool).

(** Entries of [ZodNumber]'s [_def.checks]; [.min(v)] and [.max(v)] record
    [inclusive: true]. *)
Inductive NumberCheck : Type :=
| CkInt
| CkMin (value : Q) (inclusive : bool)
| CkMax (value : Q) (inclusive : bool).

(** The value held by [z.literal(value)]. *)
Inductive LiteralValue : Type :=
| LitString (s : string)
| LitNumber (n : Q)
| LitBoolean (b : bool).

Unset Elimination Schemes.
(** A Zod schema instance, by class.  The first argument of every
    constructor is [_def.description]. *)
Inductive ZodTypeAny : Type :=
| ZodString (descr : option string) (checks : list StringCheck)
| ZodNumber (descr : option string) (checks : list NumberCheck)
| ZodBoolean (descr : option string)
| ZodArray (descr : option string) (element : ZodTypeAny)
           (minLength maxLength exactLength : option Q)
| ZodObject (descr : option string) (shape : list (string * ZodTypeAny))
| ZodEnum (descr : option string) (values : list string)
| ZodLiteral (descr : option string) (value : LiteralValue)
| ZodUnion (descr : option string) (options : list ZodTypeAny)
| ZodDiscriminatedUnion (descr : option string) (discriminator : string)
                        (options : list ZodTypeAny)
| ZodNull (descr : option string)
| ZodOptional (descr : option string) (innerType : ZodTypeAny)
| ZodNullable (descr : option string) (innerType : ZodTypeAny)
| ZodLazy (descr : option string) (getter : unit -> ZodTypeAny)
| ZodOther (descr : option string) (typeName : string)
           (parses : Value -> bool).
Set Elimination Schemes.

(** [schema.description]. *)
Definition zdescription (schema : ZodTypeAny) : option string :=
  match schema with
  | ZodString d _ | ZodNumber d _ | ZodBoolean d | ZodArray d _ _ _ _
  | ZodObject d _ | ZodEnum d _ | ZodLiteral d _ | ZodUnion d _
  | ZodDiscriminatedUnion d _ _ | ZodNull d | ZodOptional d _
  | ZodNullable d _ | ZodLazy d _ | ZodOther d _ _ => d
  end.

(** [schema.describe(text)]: the same node with [_def.description] set. *)
Definition describe (schema : ZodTypeAny) (text : string) : ZodTypeAny :=
  match schema with
  | ZodString _ cs => ZodString (Some text) cs
  | ZodNumber _ cs => ZodNumber (Some text) cs
  | ZodBoolean _ => ZodBoolean (Some text)
  | ZodArray _ e lo hi ex => ZodArray (Some text) e lo hi ex
  | ZodObject _ sh => ZodObject (Some text) sh
  | ZodEnum _ vs => ZodEnum (Some text) vs
  | ZodLiteral _ v => ZodLiteral (Some text) v
  | ZodUnion _ os => ZodUnion (Some text) os
  | ZodDiscriminatedUnion _ k os => ZodDiscriminatedUnion (Some text) k os
  | ZodNull _ => ZodNull (Some text)
  | ZodOptional _ i => ZodOptional (Some text) i
  | ZodNullable _ i => ZodNullable (Some text) i
  | ZodLazy _ g => ZodLazy (Some text) g
  | ZodOther _ n p => ZodOther (Some text) n p
  end.

(** Constructors of the [z] namespace. *)
Definition string_ : ZodTypeAny := ZodString None [].
Definition number_ : ZodTypeAny := ZodNumber None [].
Definition boolean_ : ZodTypeAny := ZodBoolean None.
Definition null_ : ZodTypeAny := ZodNull None.
Definition array_ (element : ZodTypeAny) : ZodTypeAny :=
  ZodArray None element None None None.
Definition object_ (shape : list (string * ZodTypeAny)) : ZodTypeAny :=
  ZodObject None shape.
Definition enum_ (values : list string) : ZodTypeAny := ZodEnum None values.
Definition literal_ (value : string) : ZodTypeAny :=
  ZodLiteral None (LitString value).
(** [z.union(options)]: that there are at least two options is asked by the
    TypeScript signature only; nothing is checked when the node is
    created. *)
Definition union_ (options : list ZodTypeAny) : ZodTypeAny :=
  ZodUnion None options.

(** [.optional()] and [.nullable()] wrap the node; the wrapper is created
    from the node's own [_def], so it starts with the node's description. *)
Definition optional (schema : ZodTypeAny) : ZodTypeAny :=
  ZodOptional (zdescription schema) schema.
Definition nullable_ (schema : ZodTypeAny) : ZodTypeAny :=
  ZodNullable (zdescription schema) schema.

(** Methods of [ZodString], [ZodNumber] and [ZodArray].  Each is applied
    by the transformer to a node of its own class only; on another class
    the method does not exist and the node is returned as it is. *)
Definition datetime (schema : ZodTypeAny) : ZodTypeAny :=
  match schema with
  | ZodString d cs => ZodString d (cs ++ [CkDatetime])
  | other => other
  end.
Definition date (schema : ZodTypeAny) : ZodTypeAny :=
  match schema with
  | ZodString d cs => ZodString d (cs ++ [CkDate])
  | other => other
  end.
Definition int (schema : ZodTypeAny) : ZodTypeAny :=
  match schema with
  | ZodNumber d cs => ZodNumber d (cs ++ [CkInt])
  | other => other
  end.
Definition min (schema : ZodTypeAny) (v : Q) : ZodTypeAny :=
  match schema with
  | ZodNumber d cs => ZodNumber d (cs ++ [CkMin v true])
  | ZodArray d e _ hi ex => ZodArray d e (Some v) hi ex
  | other => other
  end.
Definition max (schema : ZodTypeAny) (v : Q) : ZodTypeAny :=
  match schema with
  | ZodNumber d cs => ZodNumber d (cs ++ [CkMax v true])
  | ZodArray d e lo _ ex => ZodArray d e lo (Some v) ex
  | other => other
  end.

(** The two string formats are regular expressions of the library; the
    verdict of a validator is stated for any pair of them. *)
Class StringFormats : Type := {
  datetimeRegex : string -> bool;
  dateRegex : string -> bool
}.

(** A Zod schema instance inherits getters from its class ([description]
    on every class, [element] on arrays, [shape] on objects, ...).  In
    strict code, assigning such a property on an object whose prototype
    is the instance throws a [TypeError]: [readOnlyMessage node key] is
    its message when [key] names a getter of the class of [node], and
    [None] when the assignment goes through.  Which names are getters is
    a fact of the library, the text of the message one of the engine. *)
Class ZodPrototypes : Type := {
  readOnlyMessage : ZodTypeAny -> string -> option string
}.

(** [Number.isInteger]. *)
Definition isInteger (n : Q) : bool := Pos.eqb (Qden (Qred n)) 1.

Definition Qlt_bool (a b : Q) : bool := negb (Qle_bool b a).

(** [arr.length] as a number. *)
Definition lengthOf {A} (l : list A) : Q := inject_Z (Z.of_nat (List.length l)).

(** The methods every object inherits from [Object.prototype]. *)
Definition objectPrototypeMethods : list string :=
  ["constructor"; "hasOwnProperty"; "isPrototypeOf"; "propertyIsEnumerable";
   "toLocaleString"; "toString"; "valueOf";
   "__defineGetter__"; "__defineSetter__";
   "__lookupGetter__"; "__lookupSetter__"].

(** [Object.prototype[key]]: a method, [null] under the accessor
    ["__proto__"] (the prototype of [Object.prototype]), else
    [undefined]. *)
Definition prototypeAt (key : string) : Value :=
  if String.eqb key "__proto__" then VNull
  else if includes objectPrototypeMethods key then VFunction
  else VUndefined.

(** What a plain object yields under a key it does not own: the lookup
    goes on in [Object.prototype], where ["__proto__"] yields
    [Object.prototype] itself. *)
Definition inherited (key : string) : Value :=
  if String.eqb key "__proto__" then VObjectPrototype
  else prototypeAt key.

(** [data[key]] on a plain object: the own property, else what is
    inherited. *)
Definition valueAt (fields : list (string * Value)) (key : string) : Value :=
  match get fields key with
  | Some v => v
  | None => inherited key
  end.

(** Equality of primitive values, as used for literals and for the keys of
    the discriminator table. *)
Definition samePrimitive (a b : Value) : bool :=
  match a, b with
  | VUndefined, VUndefined => true
  | VNull, VNull => true
  | VBool x, VBool y => Bool.eqb x y
  | VNum x, VNum y => Qeq_bool x y
  | VStr x, VStr y => String.eqb x y
  | _, _ => false
  end.

Definition literalValue (v : LiteralValue) : Value :=
  match v with
  | LitString s => VStr s
  | LitNumber n => VNum n
  | LitBoolean b => VBool b
  end.

(** The values a discriminator field can take ([getDiscriminator]). *)
Fixpoint discriminatorValues (field : ZodTypeAny) : list Value :=
  match field with
  | ZodLiteral _ v => [literalValue v]
  | ZodEnum _ vs => map VStr vs
  | ZodNull _ => [VNull]
  | ZodOptional _ inner => VUndefined :: discriminatorValues inner
  | ZodNullable _ inner => VNull :: discriminatorValues inner
  | ZodLazy _ getter => discriminatorValues (getter tt)
  | _ => []
  end.

(** Whether [optionsMap.get(value)] is this option. *)
Definition selectedBy (discriminator : string) (value : Value)
           (option_ : ZodTypeAny) : bool :=
  match option_ with
  | ZodObject _ shape =>
      match get shape discriminator with
      | Some field => existsb (samePrimitive value) (discriminatorValues field)
      | None => false
      end
  | _ => false
  end.

Section SafeParse.
Context {formats : StringFormats}.

Definition stringCheckOk (s : string) (c : StringCheck) : bool :=
  match c with
  | CkDatetime => datetimeRegex s
  | CkDate => dateRegex s
  | CkOtherString _ test => test s
  end.

Definition numberCheckOk (n : Q) (c : NumberCheck) : bool :=
  match c with
  | CkInt => isInteger n
  | CkMin v inclusive => if inclusive then Qle_bool v n else Qlt_bool v n
  | CkMax v inclusive => if inclusive then Qle_bool n v else Qlt_bool n v
  end.

Definition lengthOk (len : Q) (lo hi ex : option Q) : bool :=
  match ex with Some v => Qeq_bool len v | None => true end
  && match lo with Some v => Qle_bool v len | None => true end
  && match hi with Some v => Qle_bool len v | None => true end.

(** [schema.safeParse(data).success]: whether the validator accepts the
    data.  An object validator reads [data[key]] for each key of its
    shape, inherited properties included; unknown keys are stripped, not
    rejected. *)
Fixpoint accepts (schema : ZodTypeAny) (data : Value) {struct schema} : bool :=
  match schema with
  | ZodString _ checks =>
      match data with
      | VStr s => forallb (stringCheckOk s) checks
      | _ => false
      end
  | ZodNumber _ checks =>
      match data with
      | VNum n => forallb (numberCheckOk n) checks
      | _ => false
      end
  | ZodBoolean _ =>
      match data with VBool _ => true | _ => false end
  | ZodArray _ element lo hi ex =>
      match data with
      | VArr elements =>
          lengthOk (lengthOf elements) lo hi ex
          && forallb (accepts element) elements
      | _ => false
      end
  | ZodObject _ shape =>
      match data with
      | VObj fields =>
          (fix each (sh : list (string * ZodTypeAny)) : bool :=
             match sh with
             | [] => true
             | (key, field) :: rest =>
                 accepts field (valueAt fields key) && each rest
             end) shape
      | VObjectPrototype =>
          (fix each (sh : list (string * ZodTypeAny)) : bool :=
             match sh with
             | [] => true
             | (key, field) :: rest =>
                 accepts field (prototypeAt key) && each rest
             end) shape
      | _ => false
      end
  | ZodEnum _ values =>
      match data with
      | VStr s => includes values s
      | _ => false
      end
  | ZodLiteral _ v => samePrimitive data (literalValue v)
  | ZodUnion _ options =>
      (fix some (os : list ZodTypeAny) : bool :=
         match os with
         | [] => false
         | o :: rest => accepts o data || some rest
         end) options
  | ZodDiscriminatedUnion _ discriminator options =>
      match data with
      | VObj fields =>
          (fix pick (os : list ZodTypeAny) : bool :=
             match os with
             | [] => false
             | o :: rest =>
                 if selectedBy discriminator (valueAt fields discriminator) o
                 then accepts o data
                 else pick rest
             end) options
      | VObjectPrototype =>
          (fix pick (os : list ZodTypeAny) : bool :=
             match os with
             | [] => false
             | o :: rest =>
                 if selectedBy discriminator (prototypeAt discriminator) o
                 then accepts o data
                 else pick rest
             end) options
      | _ => false
      end
  | ZodNull _ =>
      match data with VNull => true | _ => false end
  | ZodOptional _ inner =>
      match data with VUndefined => true | _ => accepts inner data end
  | ZodNullable _ inner =>
      match data with VNull => true | _ => accepts inner data end
  | ZodLazy _ getter => accepts (getter tt) data
  | ZodOther _ _ parses => parses data
  end.

End SafeParse.

End Zod.
Import Zod.

(* ===================================================================== *)
(** ** vertex-schema-to-zod.ts *)
(* ===================================================================== *)

(** The idiom [if (description) out = out.describe(description)]. *)
Definition describeIfSet (out : ZodTypeAny) (text : option string)
  : ZodTypeAny :=
  match text with
  | Some d => if truthy (Some d) then describe out d else out
  | None => out
  end.

(** [applyNullable]: attach [.nullable()] when [schema.nullable] is set. *)
Definition applyNullable (zodSchema : ZodTypeAny) (schema : VertexSchema)
  : ZodTypeAny :=
  match nullable schema with
  | Some true => nullable_ zodSchema
  | _ => zodSchema
  end.

(** [makeStringZod]. *)
Definition makeStringZod (schema : VertexSchema) : ZodTypeAny :=
  match enum schema with
  | Some ((_ :: _ :: _) as maybeEnum) =>
      let out := enum_ maybeEnum in
      let out := describeIfSet out (description schema) in
      applyNullable out schema
  | Some [only] =>
      let out := literal_ only in
      let out := describeIfSet out (description schema) in
      applyNullable out schema
  | _ =>
      let strZod := string_ in
      let strZod :=
        match format schema with
        | Some f => if String.eqb f "date-time" then datetime strZod else strZod
        | None => strZod
        end in
      let strZod := describeIfSet strZod (description schema) in
      applyNullable strZod schema
  end.

(** [makeNumberZod]. *)
Definition makeNumberZod (schema : VertexSchema) : ZodTypeAny :=
  let numZod := number_ in
  let numZod :=
    match type schema with
    | Some INTEGER => int numZod
    | _ => numZod
    end in
  let numZod :=
    match minimum schema with
    | Some v => min numZod v
    | None => numZod
    end in
  let numZod :=
    match maximum schema with
    | Some v => max numZod v
    | None => numZod
    end in
  let numZod := describeIfSet numZod (description schema) in
  applyNullable numZod schema.

(** [makeBooleanZod]. *)
Definition makeBooleanZod (schema : VertexSchema) : ZodTypeAny :=
  let boolZod := boolean_ in
  let boolZod := describeIfSet boolZod (description schema) in
  applyNullable boolZod schema.

(** The message of [makeArrayZod]. *)
Definition ARRAY_NEEDS_ITEMS : string :=
  "ARRAY type schema must have 'items'".

(** The message of the [default:] case, with [schema.type] printed by the
    template literal. *)
Definition UNSUPPORTED_TYPE (t : option SchemaType) : string :=
  "Unsupported or missing schema.type: " ++
  match t with
  | None => "undefined"
  | Some STRING => "STRING"
  | Some NUMBER => "NUMBER"
  | Some INTEGER => "INTEGER"
  | Some BOOLEAN => "BOOLEAN"
  | Some ARRAY => "ARRAY"
  | Some OBJECT => "OBJECT"
  end.

(** The object [shape] of [makeObjectZod], created as [{}]: what has
    become of its prototype ([None] while it still is [Object.prototype],
    the node assigned under ["__proto__"] afterwards) and its own
    properties. *)
Record Shape : Type := mkShape {
  prototype : option ZodTypeAny;
  ownFields : list (string * ZodTypeAny)
}.

Definition emptyShape : Shape := mkShape None [].

(** The message, if any, with which [shape[key] = ...] throws for a key
    other than ["__proto__"]: an own property is simply written; else the
    key is looked up along the prototype chain, and a getter without
    setter found there makes the assignment throw. *)
Definition assignError {prototypes : ZodPrototypes}
           (shape : Shape) (key : string) : option string :=
  match get (ownFields shape) key with
  | Some _ => None
  | None =>
      match prototype shape with
      | Some node => readOnlyMessage node key
      | None => None
      end
  end.

(** [shape[key] = zodField].  Under ["__proto__"] the assignment reaches
    the setter every object inherits from [Object.prototype]: the
    prototype of [shape] is replaced by the node and no own property is
    created.  Under any other key it creates or overwrites the own
    property, unless it throws. *)
Definition assign {prototypes : ZodPrototypes}
           (shape : Shape) (key : string) (zodField : ZodTypeAny)
  : Result Shape :=
  if String.eqb key "__proto__"
  then Ok (mkShape (Some zodField) (ownFields shape))
  else
    match assignError shape key with
    | Some message => Throw message
    | None => Ok (mkShape (prototype shape) (set (ownFields shape) key zodField))
    end.

(** [makeArrayZod] and [makeObjectZod] call back into [vertexSchemaToZod];
    they are written over the function they call and closed below. *)
Section Recursive.
Context {prototypes : ZodPrototypes}.
Variable recur : VertexSchema -> Result ZodTypeAny.

Definition makeArrayZodOver (schema : VertexSchema) : Result ZodTypeAny :=
  match items schema with
  | None => Throw ARRAY_NEEDS_ITEMS
  | Some itemsSchema =>
      elementZod <- recur itemsSchema ;;
      let arrZod := array_ elementZod in
      let arrZod :=
        match minItems schema with
        | Some v => min arrZod v
        | None => arrZod
        end in
      let arrZod :=
        match maxItems schema with
        | Some v => max arrZod v
        | None => arrZod
        end in
      let arrZod := describeIfSet arrZod (description schema) in
      Ok (applyNullable arrZod schema)
  end.

(** The [for (const key of Object.keys(properties))] loop over the shape
    built so far; an entry is a key with [properties[key]]. *)
Fixpoint fillShape (required_ : list string)
         (entries : list (string * VertexSchema))
         (shape : Shape)
  : Result Shape :=
  match entries with
  | [] => Ok shape
  | (key, propertySchema) :: rest =>
      zodField <- recur propertySchema ;;
      let zodField :=
        if negb (includes required_ key) then optional zodField
        else zodField in
      shape <- assign shape key zodField ;;
      fillShape required_ rest shape
  end.

(** The destructuring defaults [properties = {}] and [required = []];
    [z.object(shape)] takes the own keys of [shape]. *)
Definition makeObjectZodOver (schema : VertexSchema) : Result ZodTypeAny :=
  let required_ :=
    match required schema with Some r => r | None => [] end in
  shape <- match properties schema with
           | Some properties_ => fillShape required_ properties_ emptyShape
           | None => fillShape required_ [] emptyShape
           end ;;
  let objectZod := object_ (ownFields shape) in
  let objectZod := describeIfSet objectZod (description schema) in
  Ok (applyNullable objectZod schema).

End Recursive.

(** [vertexSchemaToZod]. *)
Fixpoint vertexSchemaToZod {prototypes : ZodPrototypes}
         (schema : VertexSchema) : Result ZodTypeAny :=
  match anyOf schema with
  | Some ((_ :: _) as branches) =>
      unionVariants <- mapThrow vertexSchemaToZod branches ;;
      let unionSchema := union_ unionVariants in
      let unionSchema := describeIfSet unionSchema (description schema) in
      Ok (applyNullable unionSchema schema)
  | _ =>
      match type schema with
      | Some STRING => Ok (makeStringZod schema)
      | Some NUMBER | Some INTEGER => Ok (makeNumberZod schema)
      | Some BOOLEAN => Ok (makeBooleanZod schema)
      | Some ARRAY => makeArrayZodOver vertexSchemaToZod schema
      | Some OBJECT => makeObjectZodOver vertexSchemaToZod schema
      | None => Throw (UNSUPPORTED_TYPE (type schema))
      end
  end.

(** [makeArrayZod] and [makeObjectZod], closed. *)
Definition makeArrayZod {prototypes : ZodPrototypes}
  : VertexSchema -> Result ZodTypeAny :=
  makeArrayZodOver vertexSchemaToZod.
Definition makeObjectZod {prototypes : ZodPrototypes}
  : VertexSchema -> Result ZodTypeAny :=
  makeObjectZodOver vertexSchemaToZod.

(* ===================================================================== *)
(** ** The library's regular expressions for [date] and [datetime] *)
(* ===================================================================== *)

(** The expressions and the getters of Zod 3 (3.23 and later, where
    [z.string().date()] exists).  The statements below hold for any
    [StringFormats] and [ZodPrototypes]; these instances are the ones the
    examples are run with. *)
Module Zod3.

(** [\d] *)
Definition digit (c : ascii) : option nat :=
  let n := nat_of_ascii c in
  if (48 <=? n)%nat && (n <=? 57)%nat then Some (n - 48)%nat else None.

Definition isDigit (c : ascii) : bool :=
  match digit c with Some _ => true | None => false end.

Definition twoDigits (a b : ascii) : option nat :=
  match digit a, digit b with
  | Some x, Some y => Some (10 * x + y)%nat
  | _, _ => None
  end.

Definition daysIn (leap : bool) (month : nat) : nat :=
  match month with
  | 1 | 3 | 5 | 7 | 8 | 10 | 12 => 31
  | 4 | 6 | 9 | 11 => 30
  | 2 => if leap then 29 else 28
  | _ => 0
  end%nat.

(** [dateRegexSource]: a four-digit year, a month and a day of that month,
    the 29th of February only in the leap years the expression lists. *)
Definition dateOk (y1 y2 y3 y4 m1 m2 d1 d2 : ascii) : bool :=
  match twoDigits y1 y2, twoDigits y3 y4, twoDigits m1 m2, twoDigits d1 d2 with
  | Some century, Some yy, Some month, Some day =>
      let leap :=
        if (yy =? 0)%nat then (century mod 4 =? 0)%nat
        else (yy mod 4 =? 0)%nat in
      (1 <=? day)%nat && (day <=? daysIn leap month)%nat
  | _, _, _, _ => false
  end.

(** [timeRegexSource] without the fraction:
    [([01]\d|2[0-3]):[0-5]\d:[0-5]\d]. *)
Definition timeOk (h1 h2 n1 n2 s1 s2 : ascii) : bool :=
  match twoDigits h1 h2, twoDigits n1 n2, twoDigits s1 s2 with
  | Some h, Some n, Some s => (h <=? 23)%nat && (n <=? 59)%nat && (s <=? 59)%nat
  | _, _, _ => false
  end.

(** [\d*Z$] *)
Fixpoint digitsThenZ (cs : list ascii) : bool :=
  match cs with
  | [] => false
  | [c] => Ascii.eqb c "Z"
  | c :: rest => isDigit c && digitsThenZ rest
  end.

(** [(\.\d+)?Z$] *)
Definition fractionThenZ (cs : list ascii) : bool :=
  match cs with
  | [c] => Ascii.eqb c "Z"
  | dot :: d :: rest => Ascii.eqb dot "." && isDigit d && digitsThenZ rest
  | _ => false
  end.

(** [z.string().date()]: [^dateRegexSource$]. *)
Definition date (s : string) : bool :=
  match list_ascii_of_string s with
  | [y1; y2; y3; y4; a; m1; m2; b; d1; d2] =>
      Ascii.eqb a "-" && Ascii.eqb b "-" && dateOk y1 y2 y3 y4 m1 m2 d1 d2
  | _ => false
  end.

(** [z.string().datetime()] with its default options (no offset, not
    local, any precision): [^dateTtime(\.\d+)?Z$]. *)
Definition datetime (s : string) : bool :=
  match list_ascii_of_string s with
  | y1 :: y2 :: y3 :: y4 :: a :: m1 :: m2 :: b :: d1 :: d2 :: t
       :: h1 :: h2 :: c :: n1 :: n2 :: d :: s1 :: s2 :: rest =>
      Ascii.eqb a "-" && Ascii.eqb b "-" && Ascii.eqb t "T"
      && Ascii.eqb c ":" && Ascii.eqb d ":"
      && dateOk y1 y2 y3 y4 m1 m2 d1 d2
      && timeOk h1 h2 n1 n2 s1 s2
      && fractionThenZ rest
  | _ => false
  end.

#[export] Instance formats : StringFormats :=
  {| datetimeRegex := datetime; dateRegex := date |}.

(** The name of the class of a node. *)
Definition className (node : ZodTypeAny) : string :=
  match node with
  | ZodString _ _ => "ZodString"
  | ZodNumber _ _ => "ZodNumber"
  | ZodBoolean _ => "ZodBoolean"
  | ZodArray _ _ _ _ _ => "ZodArray"
  | ZodObject _ _ => "ZodObject"
  | ZodEnum _ _ => "ZodEnum"
  | ZodLiteral _ _ => "ZodLiteral"
  | ZodUnion _ _ => "ZodUnion"
  | ZodDiscriminatedUnion _ _ _ => "ZodDiscriminatedUnion"
  | ZodNull _ => "ZodNull"
  | ZodOptional _ _ => "ZodOptional"
  | ZodNullable _ _ => "ZodNullable"
  | ZodLazy _ _ => "ZodLazy"
  | ZodOther _ typeName _ => typeName
  end.

(** The getters a class declares on its own prototype. *)
Definition getters (node : ZodTypeAny) : list string :=
  match node with
  | ZodString _ _ =>
      ["isDatetime"; "isDate"; "isTime"; "isDuration"; "isEmail"; "isURL";
       "isEmoji"; "isUUID"; "isNANOID"; "isCUID"; "isCUID2"; "isULID";
       "isIP"; "isCIDR"; "isBase64"; "isBase64url"; "isJWT";
       "minLength"; "maxLength"]
  | ZodNumber _ _ => ["minValue"; "maxValue"; "isInt"; "isFinite"]
  | ZodArray _ _ _ _ _ => ["element"]
  | ZodObject _ _ => ["shape"]
  | ZodEnum _ _ => ["options"; "enum"; "Values"; "Enum"]
  | ZodLiteral _ _ => ["value"]
  | ZodUnion _ _ => ["options"]
  | ZodDiscriminatedUnion _ _ _ => ["discriminator"; "options"; "optionsMap"]
  | ZodLazy _ _ => ["schema"]
  | _ => []
  end.

(** The class whose prototype holds the getter of a key, if any:
    [description] is declared by [ZodType], the base of every class. *)
Definition getterHolder (node : ZodTypeAny) (key : string) : option string :=
  if includes (getters node) key then Some (className node)
  else if String.eqb key "description" then Some "ZodType"
  else None.

(** The message of V8 for an assignment to a getter; it names the
    prototype that holds the getter. *)
Definition readOnly (node : ZodTypeAny) (key : string) : option string :=
  match getterHolder node key with
  | Some holder =>
      Some ("Cannot set property " ++ key ++ " of #<" ++ holder
            ++ "> which has only a getter")%string
  | None => None
  end.

#[export] Instance prototypes : ZodPrototypes :=
  {| readOnlyMessage := readOnly |}.

End Zod3.

(* ===================================================================== *)
(** ** The forward transformer *)
(* ===================================================================== *)

Definition setDescription (text : option string) (s : VertexSchema)
  : VertexSchema :=
  mkVertexSchema (type s) (format s) text (nullable s) (items s) (enum s)
                 (properties s) (required s) (example s) (propertyOrdering s)
                 (anyOf s) (minItems s) (maxItems s) (minimum s) (maximum s).

Definition setNullable (flag : option bool) (s : VertexSchema)
  : VertexSchema :=
  mkVertexSchema (type s) (format s) (description s) flag (items s) (enum s)
                 (properties s) (required s) (example s) (propertyOrdering s)
                 (anyOf s) (minItems s) (maxItems s) (minimum s) (maximum s).

(** A node of the given type and description, nothing else set. *)
Definition typed (t : SchemaType) (text : option string) : VertexSchema :=
  mkVertexSchema (Some t) None text None None None None None None None None
                 None None None None.

(** Modelled from the spec: the description of a wrapper, when it has
    one, wins over the one of what it wraps (rules 1 and 2). *)
Definition overrideDescription (outer : option string) (s : VertexSchema)
  : VertexSchema :=
  match outer with
  | Some d => setDescription (Some d) s
  | None => s
  end.

(** Modelled from the spec: whether a field is wrapped in an optional
    modifier, directly or under a nullable one (rule 10). *)
Fixpoint wrappedInOptional (field : ZodTypeAny) : bool :=
  match field with
  | ZodOptional _ _ => true
  | ZodNullable _ inner => wrappedInOptional inner
  | _ => false
  end.

Definition requiredKeys (shape : list (string * ZodTypeAny)) : list string :=
  keys (filter (fun kv => negb (wrappedInOptional (snd kv))) shape).

(** Modelled from the spec: the [format] the checks of a string call for;
    a check with no target representation is an error naming its kind
    (rule 4). *)
Fixpoint stringFormat (checks : list StringCheck) (sofar : option string)
  : Result (option string) :=
  match checks with
  | [] => Ok sofar
  | CkDatetime :: rest => stringFormat rest (Some "date-time")
  | CkDate :: rest => stringFormat rest (Some "date")
  | CkOtherString kind _ :: _ => Throw ("Unsupported string check: " ++ kind)
  end.

(** Modelled from the spec: the refinements of a number, integer flag,
    minimum and maximum (rule 5). *)
Definition isInt (checks : list NumberCheck) : bool :=
  existsb (fun c => match c with CkInt => true | _ => false end) checks.

Fixpoint lastMin (checks : list NumberCheck) (sofar : option Q) : option Q :=
  match checks with
  | [] => sofar
  | CkMin v _ :: rest => lastMin rest (Some v)
  | _ :: rest => lastMin rest sofar
  end.

Fixpoint lastMax (checks : list NumberCheck) (sofar : option Q) : option Q :=
  match checks with
  | [] => sofar
  | CkMax v _ :: rest => lastMax rest (Some v)
  | _ :: rest => lastMax rest sofar
  end.

Definition firstSome {A} (a b : option A) : option A :=
  match a with Some _ => a | None => b end.

(** Modelled from the spec: [zodToVertexSchema] of
    [zod-to-vertex-schema.ts], which is not among the sources; the cases
    are the fourteen dispatch rules of the specification's section 4.1, in
    their order of precedence, and the messages are those its test suite
    expects. *)
Fixpoint zodToVertexSchema (schema : ZodTypeAny) : Result VertexSchema :=
  match schema with
  | ZodOptional d inner =>
      out <- zodToVertexSchema inner ;;
      Ok (overrideDescription d out)
  | ZodNullable d inner =>
      out <- zodToVertexSchema inner ;;
      Ok (setNullable (Some true) (overrideDescription d out))
  | ZodNull d => Ok (setNullable (Some true) (typed STRING d))
  | ZodString d checks =>
      fmt <- stringFormat checks None ;;
      Ok (mkVertexSchema (Some STRING) fmt d None None None None None None
                         None None None None None None)
  | ZodNumber d checks =>
      Ok (mkVertexSchema (Some (if isInt checks then INTEGER else NUMBER))
                         None d None None None None None None None None
                         None None (lastMin checks None) (lastMax checks None))
  | ZodBoolean d => Ok (typed BOOLEAN d)
  | ZodEnum d values =>
      Ok (mkVertexSchema (Some STRING) None d None None (Some values) None
                         None None None None None None None None)
  | ZodLiteral d (LitString v) =>
      Ok (mkVertexSchema (Some STRING) None d None None (Some [v]) None
                         None None None None None None None None)
  | ZodLiteral _ (LitNumber _) =>
      Throw "Unsupported literal type. Gemini doesn't support number literals."
  | ZodLiteral _ (LitBoolean _) =>
      Throw "Unsupported literal type. Gemini doesn't support boolean literals."
  | ZodArray d element lo hi ex =>
      itemSchema <- zodToVertexSchema element ;;
      Ok (mkVertexSchema (Some ARRAY) None d None (Some itemSchema) None None
                         None None None None
                         (firstSome ex lo) (firstSome ex hi) None None)
  | ZodObject d shape =>
      props <- (fix fields (sh : list (string * ZodTypeAny))
                  : Result (list (string * VertexSchema)) :=
                  match sh with
                  | [] => Ok []
                  | (key, field) :: rest =>
                      out <- zodToVertexSchema field ;;
                      outs <- fields rest ;;
                      Ok ((key, out) :: outs)
                  end) shape ;;
      Ok (mkVertexSchema (Some OBJECT) None d None None None (Some props)
                         (Some (requiredKeys shape)) None (Some (keys shape))
                         None None None None None)
  | ZodUnion d options | ZodDiscriminatedUnion d _ options =>
      branches <- mapThrow zodToVertexSchema options ;;
      Ok (mkVertexSchema None None d None None None None None None None
                         (Some branches) None None None None)
  | ZodLazy _ _ =>
      Throw "Unsupported Zod type: ZodLazy (recursive schemas are not supported)"
  | ZodOther _ typeName _ => Throw ("Unsupported Zod type: " ++ typeName)
  end.

(* ===================================================================== *)
(** ** Traversal of a target tree *)
(* ===================================================================== *)

(** A node is read as a union when [anyOf] is present and not empty. *)
Definition isUnionNode (s : VertexSchema) : bool :=
  match anyOf s with
  | Some (_ :: _) => true
  | _ => false
  end.

(** The child nodes [vertexSchemaToZod] recurses into from a node. *)
Definition visits (s : VertexSchema) : list VertexSchema :=
  match anyOf s with
  | Some ((_ :: _) as branches) => branches
  | _ =>
      match type s with
      | Some ARRAY =>
          match items s with Some it => [it] | None => [] end
      | Some OBJECT =>
          match properties s with Some ps => map snd ps | None => [] end
      | _ => []
      end
  end.

(** The nodes reached by the traversal that starts at a root. *)
Inductive Reached : VertexSchema -> VertexSchema -> Prop :=
| reached_root : forall s, Reached s s
| reached_child : forall s c n, In c (visits s) -> Reached c n -> Reached s n.



(** The two structural defects of a node that is not read as a union. *)
Definition arrayWithoutItems (s : VertexSchema) : bool :=
  match type s, items s with
  | Some ARRAY, None => true
  | _, _ => false
  end.

Definition untyped (s : VertexSchema) : bool :=
  match type s with
  | None => true
  | Some _ => false
  end.

Definition malformed (s : VertexSchema) : bool :=
  negb (isUnionNode s) && (arrayWithoutItems s || untyped s).

(* ===================================================================== *)
(** ** Vocabulary of the statements *)
(* ===================================================================== *)

Definition setType (t : option SchemaType) (s : VertexSchema) : VertexSchema :=
  mkVertexSchema t (format s) (description s) (nullable s) (items s) (enum s)
                 (properties s) (required s) (example s) (propertyOrdering s)
                 (anyOf s) (minItems s) (maxItems s) (minimum s) (maximum s).

Definition setEnum (e : option (list string)) (s : VertexSchema)
  : VertexSchema :=
  mkVertexSchema (type s) (format s) (description s) (nullable s) (items s) e
                 (properties s) (required s) (example s) (propertyOrdering s)
                 (anyOf s) (minItems s) (maxItems s) (minimum s) (maximum s).

Definition setPropertyOrdering (po : option (list string)) (s : VertexSchema)
  : VertexSchema :=
  mkVertexSchema (type s) (format s) (description s) (nullable s) (items s)
                 (enum s) (properties s) (required s) (example s) po
                 (anyOf s) (minItems s) (maxItems s) (minimum s) (maximum s).

(** The description a converted node ends up with: the input's, unless it
    is absent or empty. *)
Definition descriptionKept (s : VertexSchema) : option string :=
  if truthy (description s) then description s else None.

Definition nullableSet (s : VertexSchema) : bool :=
  match nullable s with
  | Some true => true
  | _ => false
  end.

Definition isNull (v : Value) : bool :=
  match v with VNull => true | _ => false end.

(** The node an error message is about. *)
Definition blames (message : string) (n : VertexSchema) : Prop :=
  isUnionNode n = false /\
  ((message = ARRAY_NEEDS_ITEMS /\ arrayWithoutItems n = true) \/
   (message = UNSUPPORTED_TYPE None /\ untyped n = true)).

(** The defect of a node as the specification words it: an ARRAY without
    items, whatever else the node holds, or a node with neither a
    non-empty [anyOf] nor a type. *)
Definition defectAsWorded (n : VertexSchema) : bool :=
  arrayWithoutItems n || (negb (isUnionNode n) && untyped n).

(** [{ type: ARRAY, anyOf: [{ type: STRING }] }] *)
Definition arrayTypedUnion : VertexSchema :=
  mkVertexSchema (Some ARRAY) None None None None None None None None None
                 (Some [typed STRING None]) None None None None.

(** The nullable wrapper, written out. *)
Definition wrapped (s : VertexSchema) (node : ZodTypeAny) : ZodTypeAny :=
  if nullableSet s then ZodNullable (descriptionKept s) node else node.

Definition hasDatetimeFormat (s : VertexSchema) : bool :=
  match format s with
  | Some f => String.eqb f "date-time"
  | None => false
  end.

Definition propertiesOf (s : VertexSchema) : list (string * VertexSchema) :=
  match properties s with Some ps => ps | None => [] end.

Definition requiredOf (s : VertexSchema) : list string :=
  match required s with Some r => r | None => [] end.


(** No object the traversal reaches has an own property key
    ["__proto__"]. *)
Fixpoint protoFree (s : VertexSchema) : bool :=
  match anyOf s with
  | Some ((_ :: _) as branches) => forallb protoFree branches
  | _ =>
      match type s with
      | Some ARRAY =>
          match items s with Some it => protoFree it | None => true end
      | Some OBJECT =>
          match properties s with
          | Some ps =>
              forallb (fun kp => negb (String.eqb (fst kp) "__proto__")
                                 && protoFree (snd kp)) ps
          | None => true
          end
      | _ => true
      end
  end.

(** What the object loop stores under one key. *)
Definition fieldFor (recur : VertexSchema -> Result ZodTypeAny)
           (required_ : list string) (entry : string * VertexSchema)
  : Result (string * ZodTypeAny) :=
  zodField <- recur (snd entry) ;;
  Ok (fst entry,
      if includes required_ (fst entry) then zodField else optional zodField).




(* ===================================================================== *)
(** ** Schemas and data of the test suite *)
(* ===================================================================== *)

(** [z.object({ name: z.string().describe('Name field'),
                age: z.number().min(10).max(100).describe('Age field') })
      .describe('A user object')] *)
Definition originalZod : ZodTypeAny :=
  describe
    (object_
       [("name", describe string_ "Name field");
        ("age", describe (max (min number_ 10) 100) "Age field")])
    "A user object".

(** [{ name: 'Bob', age: 55 }] and [{ name: 'Bob', age: 9 }] *)
Definition validData : Value :=
  VObj [("name", VStr "Bob"); ("age", VNum 55)].
Definition invalidData : Value :=
  VObj [("name", VStr "Bob"); ("age", VNum 9)].

(** [z.object({ id: z.string(), count: z.number().optional(),
                createdAt: z.string().datetime() })
      .describe('An object schema')] *)
Definition recordZod : ZodTypeAny :=
  describe
    (object_
       [("id", string_);
        ("count", optional number_);
        ("createdAt", datetime string_)])
    "An object schema".

Definition recordVertex : VertexSchema :=
  mkVertexSchema (Some OBJECT) None (Some "An object schema") None None None
    (Some [("id", typed STRING None);
           ("count", typed NUMBER None);
           ("createdAt",
            mkVertexSchema (Some STRING) (Some "date-time") None None None
                           None None None None None None None None None None)])
    (Some ["id"; "createdAt"]) None (Some ["id"; "count"; "createdAt"])
    None None None None None.

(** [{ anyOf: [{ type: STRING }, { type: NUMBER }],
       description: 'Union of string or number' }] *)
Definition stringOrNumber : VertexSchema :=
  mkVertexSchema None None (Some "Union of string or number") None None None
                 None None None None
                 (Some [typed STRING None; typed NUMBER None])
                 None None None None.

(** [{ anyOf: [{ type: STRING }], description: 'one branch' }] *)
Definition onlyString : VertexSchema :=
  mkVertexSchema None None (Some "one branch") None None None
                 None None None None (Some [typed STRING None])
                 None None None None.

(** [{ type: STRING, enum: ['RED', 'GREEN', 'BLUE'],
       description: 'Color enum' }] *)
Definition colorEnum : VertexSchema :=
  mkVertexSchema (Some STRING) None (Some "Color enum") None None
                 (Some ["RED"; "GREEN"; "BLUE"]) None None None None None
                 None None None None.

(** [{ type: STRING, enum: ['ONE_VALUE_ONLY'] }] *)
Definition singleEnum : VertexSchema :=
  mkVertexSchema (Some STRING) None None None None
                 (Some ["ONE_VALUE_ONLY"]) None None None None None
                 None None None None.

(** [{ type: STRING, enum: [] }] *)
Definition emptyEnumString : VertexSchema :=
  mkVertexSchema (Some STRING) None None None None (Some []) None None None
                 None None None None None None.

(** [{ type: STRING, format: 'date-time',
       description: 'A datetime string' }] *)
Definition datetimeString : VertexSchema :=
  mkVertexSchema (Some STRING) (Some "date-time") (Some "A datetime string")
                 None None None None None None None None None None None None.

(** [{ type: STRING, format: 'date' }] *)
Definition dateString : VertexSchema :=
  mkVertexSchema (Some STRING) (Some "date") None
                 None None None None None None None None None None None None.

(** [{ type: STRING, nullable: true }] *)
Definition nullableString : VertexSchema :=
  setNullable (Some true) (typed STRING None).

(** [{ type: OBJECT,
       properties: { name: { type: STRING }, age: { type: INTEGER },
                     nick: { type: STRING } },
       required: ['name', 'age'], description: 'Person object' }] *)
Definition personObject : VertexSchema :=
  mkVertexSchema (Some OBJECT) None (Some "Person object") None None None
    (Some [("name", typed STRING None);
           ("age", typed INTEGER None);
           ("nick", typed STRING None)])
    (Some ["name"; "age"]) None None None None None None None.

(** [{ type: NUMBER, description: 'A floating-point number',
       minimum: 1.5, maximum: 3.2 }] *)
Definition boundedNumber : VertexSchema :=
  mkVertexSchema (Some NUMBER) None (Some "A floating-point number") None
                 None None None None None None None None None
                 (Some (3 # 2)) (Some (16 # 5)).

(** [{ type: INTEGER, description: 'An integer value',
       minimum: 0, maximum: 10 }] *)
Definition boundedInteger : VertexSchema :=
  mkVertexSchema (Some INTEGER) None (Some "An integer value") None
                 None None None None None None None None None
                 (Some 0) (Some 10).

(** [{ type: ARRAY, description: 'Array of numbers',
       items: { type: NUMBER }, minItems: 1, maxItems: 3 }] *)
Definition numberArray : VertexSchema :=
  mkVertexSchema (Some ARRAY) None (Some "Array of numbers") None
                 (Some (typed NUMBER None)) None None None None None None
                 (Some 1) (Some 3) None None.

(** [{ type: ARRAY }] *)
Definition arrayWithoutItemsSchema : VertexSchema := typed ARRAY None.

(** [{ type: OBJECT, description: 'Nested example',
       properties: { user: { type: OBJECT,
                             properties: { id: { type: INTEGER },
                                           username: { type: STRING } },
                             required: ['id'] } },
       required: ['user'] }] *)
Definition nestedObject : VertexSchema :=
  mkVertexSchema (Some OBJECT) None (Some "Nested example") None None None
    (Some [("user",
            mkVertexSchema (Some OBJECT) None None None None None
              (Some [("id", typed INTEGER None);
                     ("username", typed STRING None)])
              (Some ["id"]) None None None None None None None)])
    (Some ["user"]) None None None None None None None.

(** [vertexSchemaToZod(schema).safeParse(data).success], or the message
    thrown by the conversion. *)
Definition verdict {formats : StringFormats} {prototypes : ZodPrototypes}
           (schema : VertexSchema) (data : Value) : Result bool :=
  zodSchema <- vertexSchemaToZod schema ;;
  Ok (accepts zodSchema data).

(* ===================================================================== *)
(** ** Vocabulary of the further properties *)
(* ===================================================================== *)

Definition setRequired (r : option (list string)) (s : VertexSchema)
  : VertexSchema :=
  mkVertexSchema (type s) (format s) (description s) (nullable s) (items s)
                 (enum s) (properties s) r (example s) (propertyOrdering s)
                 (anyOf s) (minItems s) (maxItems s) (minimum s) (maximum s).

(** The JavaScript kind of value a node of a given type validates;
    [Object.prototype] is an object like any other. *)
Definition kindMatches (t : SchemaType) (v : Value) : bool :=
  match t, v with
  | STRING, VStr _ => true
  | NUMBER, VNum _ => true
  | INTEGER, VNum _ => true
  | BOOLEAN, VBool _ => true
  | ARRAY, VArr _ => true
  | OBJECT, VObj _ => true
  | OBJECT, VObjectPrototype => true
  | _, _ => false
  end.

(** The bounds and the integrality a NUMBER or INTEGER node asks for. *)
Definition numberInRange (s : VertexSchema) (n : Q) : bool :=
  match type s with Some INTEGER => isInteger n | _ => true end
  && match minimum s with Some lo => Qle_bool lo n | None => true end
  && match maximum s with Some hi => Qle_bool n hi | None => true end.

(** The bounds an ARRAY node puts on the length. *)
Definition lengthInRange (s : VertexSchema) (len : Q) : bool :=
  match minItems s with Some lo => Qle_bool lo len | None => true end
  && match maxItems s with Some hi => Qle_bool len hi | None => true end.

(** A node with every field the conversion does not read for its kind
    cleared, at every depth: a union keeps its branches, a STRING node its
    enum or else whether the format is ["date-time"], a number its bounds,
    an array its items and length bounds, an object its properties and
    [required]; a description or a nullable flag that is not taken into
    account ([''], [false]) is dropped as well. *)
Fixpoint relevant (s : VertexSchema) : VertexSchema :=
  let d := descriptionKept s in
  let n := if nullableSet s then Some true else None in
  match anyOf s with
  | Some ((_ :: _) as branches) =>
      mkVertexSchema None None d n None None None None None None
                     (Some (map relevant branches)) None None None None
  | _ =>
      match type s with
      | Some STRING =>
          match enum s with
          | Some ((_ :: _) as values) =>
              mkVertexSchema (Some STRING) None d n None (Some values) None
                             None None None None None None None None
          | _ =>
              mkVertexSchema (Some STRING)
                             (if hasDatetimeFormat s then Some "date-time"
                              else None)
                             d n None None None None None None None
                             None None None None
          end
      | Some NUMBER =>
          mkVertexSchema (Some NUMBER) None d n None None None None None None
                         None None None (minimum s) (maximum s)
      | Some INTEGER =>
          mkVertexSchema (Some INTEGER) None d n None None None None None None
                         None None None (minimum s) (maximum s)
      | Some BOOLEAN =>
          mkVertexSchema (Some BOOLEAN) None d n None None None None None None
                         None None None None None
      | Some ARRAY =>
          mkVertexSchema (Some ARRAY) None d n
                         match items s with
                         | Some it => Some (relevant it)
                         | None => None
                         end
                         None None None None None None
                         (minItems s) (maxItems s) None None
      | Some OBJECT =>
          mkVertexSchema (Some OBJECT) None d n None None
                         match properties s with
                         | Some ps =>
                             Some (map (fun kv => (fst kv, relevant (snd kv)))
                                       ps)
                         | None => None
                         end
                         (required s) None None None None None None None
      | None =>
          mkVertexSchema None None None None None None None None None None
                         None None None None None
      end
  end.

(** The checks [makeNumberZod] can put on a number node: [int], then a
    minimum, then a maximum, each at most once and inclusive. *)
Definition numberChecksBuilt (checks : list NumberCheck) : bool :=
  let afterInt :=
    match checks with CkInt :: rest => rest | _ => checks end in
  let afterMin :=
    match afterInt with CkMin _ true :: rest => rest | _ => afterInt end in
  match afterMin with
  | [] => true
  | [CkMax _ true] => true
  | _ => false
  end.

(** The nodes the reverse conversion can return, without the nullable
    wrapper: string nodes with no check or the date-time check alone,
    number nodes with the checks above, boolean nodes, arrays without an
    exact length, objects whose fields are returned nodes or one optional
    wrapper around one, enumerations of two values or more, string
    literals and non-empty unions; a child is such a node or one nullable
    wrapper around one. *)
Fixpoint builtCore (z : ZodTypeAny) : bool :=
  let node := fun child : ZodTypeAny =>
    match child with
    | ZodNullable _ inner => builtCore inner
    | other => builtCore other
    end in
  match z with
  | ZodString _ [] => true
  | ZodString _ [CkDatetime] => true
  | ZodNumber _ checks => numberChecksBuilt checks
  | ZodBoolean _ => true
  | ZodArray _ element _ _ None => node element
  | ZodObject _ shape =>
      (fix each (sh : list (string * ZodTypeAny)) : bool :=
         match sh with
         | [] => true
         | (_, ZodOptional _ inner) :: rest => node inner && each rest
         | (_, field) :: rest => node field && each rest
         end) shape
  | ZodEnum _ (_ :: _ :: _) => true
  | ZodLiteral _ (LitString _) => true
  | ZodUnion _ ((_ :: _) as options) =>
      (fix all (os : list ZodTypeAny) : bool :=
         match os with
         | [] => true
         | o :: rest => node o && all rest
         end) options
  | _ => false
  end.

(** The nodes the reverse conversion can return. *)
Definition reverseBuilt (z : ZodTypeAny) : bool :=
  match z with
  | ZodNullable _ inner => builtCore inner
  | other => builtCore other
  end.

(** A field of a returned object: a returned node, or one optional
    wrapper around one. *)
Definition fieldBuilt (field : ZodTypeAny) : bool :=
  match field with
  | ZodOptional _ inner => reverseBuilt inner
  | other => reverseBuilt other
  end.

(** The validator [vertexSchemaToZod] returns for the person object of the
    test suite. *)
Definition personZod : ZodTypeAny :=
  ZodObject (Some "Person object")
    [("name", ZodString None []);
     ("age", ZodNumber None [CkInt]);
     ("nick", ZodOptional None (ZodString None []))].

(** [{ type: BOOLEAN, description: 'A boolean value' }] *)
Definition booleanField : VertexSchema :=
  typed BOOLEAN (Some "A boolean value").

(** [{ anyOf: [{ type: STRING }, { type: ARRAY }, { type: NUMBER }] }]: the
    second branch has no items. *)
Definition brokenUnion : VertexSchema :=
  mkVertexSchema None None None None None None None None None None
                 (Some [typed STRING None; typed ARRAY None;
                        typed NUMBER None])
                 None None None None.

(** [{ type: OBJECT, properties: { a: { type: STRING }, b: {},
                                   c: { type: ARRAY } } }]: [b] has no type
    and [c] no items. *)
Definition brokenObject : VertexSchema :=
  mkVertexSchema (Some OBJECT) None None None None None
    (Some [("a", typed STRING None);
           ("b", mkVertexSchema None None None None None None None None None
                                None None None None None None);
           ("c", typed ARRAY None)])
    None None None None None None None None.

(** [{ type: OBJECT,
       properties: JSON.parse('{"__proto__": {"type": "STRING"}}'),
       required: ['__proto__'] }]: an own property under the key
    ["__proto__"], as [JSON.parse] creates it. *)
Definition protoObject : VertexSchema :=
  mkVertexSchema (Some OBJECT) None None None None None
    (Some [("__proto__", typed STRING None)])
    (Some ["__proto__"]) None None None None None None None.

(** [{ type: OBJECT, properties: { constructor: { type: STRING } } }]: an
    optional property named like a method of [Object.prototype]. *)
Definition constructorObject : VertexSchema :=
  mkVertexSchema (Some OBJECT) None None None None None
    (Some [("constructor", typed STRING None)])
    None None None None None None None None.

(** [{ type: OBJECT,
       properties: JSON.parse('{"__proto__": {"type": "STRING"},
                                "description": {"type": "STRING"}}') }] *)
Definition protoThenDescription : VertexSchema :=
  mkVertexSchema (Some OBJECT) None None None None None
    (Some [("__proto__", typed STRING None);
           ("description", typed STRING None)])
    None None None None None None None None.

(* ===================================================================== *)
(** ** Induction over the two trees *)
(* ===================================================================== *)

Section VertexSchemaInduction.
Variable P : VertexSchema -> Prop.
Hypothesis step : forall s,
  (forall it, items s = Some it -> P it) ->
  (forall ps, properties s = Some ps -> Forall (fun kv => P (snd kv)) ps) ->
  (forall bs, anyOf s = Some bs -> Forall P bs) ->
  P s.

Fixpoint VertexSchema_ind (s : VertexSchema) : P s.
Proof.
  apply step; destruct s as [t f d n it e ps r ex po bs mi ma lo hi]; simpl.
  - intros x Hx. destruct it as [it|]; [|discriminate].
    injection Hx as <-. apply VertexSchema_ind.
  - intros x Hx. destruct ps as [ps|]; [|discriminate].
    injection Hx as <-.
    induction ps as [|[k v] rest IH]; constructor; [apply VertexSchema_ind|exact IH].
  - intros x Hx. destruct bs as [bs|]; [|discriminate].
    injection Hx as <-.
    induction bs as [|b rest IH]; constructor; [apply VertexSchema_ind|exact IH].
Qed.
End VertexSchemaInduction.

Section ZodInduction.
Variable P : ZodTypeAny -> Prop.
Hypothesis leaf_string : forall d cs, P (ZodString d cs).
Hypothesis leaf_number : forall d cs, P (ZodNumber d cs).
Hypothesis leaf_boolean : forall d, P (ZodBoolean d).
Hypothesis node_array : forall d e lo hi ex, P e -> P (ZodArray d e lo hi ex).
Hypothesis node_object : forall d sh,
  Forall (fun kv => P (snd kv)) sh -> P (ZodObject d sh).
Hypothesis leaf_enum : forall d vs, P (ZodEnum d vs).
Hypothesis leaf_literal : forall d v, P (ZodLiteral d v).
Hypothesis node_union : forall d os, Forall P os -> P (ZodUnion d os).
Hypothesis node_discriminated : forall d k os,
  Forall P os -> P (ZodDiscriminatedUnion d k os).
Hypothesis leaf_null : forall d, P (ZodNull d).
Hypothesis node_optional : forall d i, P i -> P (ZodOptional d i).
Hypothesis node_nullable : forall d i, P i -> P (ZodNullable d i).
Hypothesis node_lazy : forall d g, P (g tt) -> P (ZodLazy d g).
Hypothesis leaf_other : forall d n p, P (ZodOther d n p).

End ZodInduction.

(* ===================================================================== *)
(** ** Auxiliary facts *)
(* ===================================================================== *)

(** Everything below holds whatever the getters of the library's classes
    are. *)
Section Library.
Context {prototypes : ZodPrototypes}.



Lemma mapThrow_ok {A B} (f : A -> Result B) xs ys :
  mapThrow f xs = Ok ys <-> Forall2 (fun x y => f x = Ok y) xs ys.
Proof.
  revert ys. induction xs as [|x rest IH]; intros ys; simpl.
  - split.
    + intros [= <-]. constructor.
    + intros H. inversion H. reflexivity.
  - split.
    + destruct (f x) as [y|m] eqn:Ex; [|discriminate].
      destruct (mapThrow f rest) as [ys'|m] eqn:Er; [|discriminate].
      intros [= <-]. constructor; [exact Ex|]. now apply IH.
    + intros H. inversion H as [|x' y l l' Hxy Hrest]; subst.
      rewrite Hxy. apply IH in Hrest. now rewrite Hrest.
Qed.

Lemma mapThrow_throw {A B} (f : A -> Result B) xs m :
  mapThrow f xs = Throw m -> exists x, In x xs /\ f x = Throw m.
Proof.
  induction xs as [|x rest IH]; simpl; [discriminate|].
  destruct (f x) as [y|m'] eqn:Ex.
  - destruct (mapThrow f rest) as [ys|m''] eqn:Er; [discriminate|].
    intros [= ->]. destruct (IH eq_refl) as (c & Hc & Hf). eauto.
  - intros [= ->]. eauto.
Qed.

Lemma mapThrow_total {A B} (f : A -> Result B) xs :
  Forall (fun x => exists y, f x = Ok y) xs -> exists ys, mapThrow f xs = Ok ys.
Proof.
  induction 1 as [|x rest [y Hy] _ [ys Hys]]; simpl; [eauto|].
  rewrite Hy, Hys. eauto.
Qed.

(** One step of [vertexSchemaToZod], with the two recursive helpers
    closed. *)
Lemma vertexSchemaToZod_unfold (schema : VertexSchema) :
  vertexSchemaToZod schema =
  match anyOf schema with
  | Some ((_ :: _) as branches) =>
      unionVariants <- mapThrow vertexSchemaToZod branches ;;
      Ok (applyNullable
            (describeIfSet (union_ unionVariants) (description schema)) schema)
  | _ =>
      match type schema with
      | Some STRING => Ok (makeStringZod schema)
      | Some NUMBER | Some INTEGER => Ok (makeNumberZod schema)
      | Some BOOLEAN => Ok (makeBooleanZod schema)
      | Some ARRAY => makeArrayZod schema
      | Some OBJECT => makeObjectZod schema
      | None => Throw (UNSUPPORTED_TYPE (type schema))
      end
  end.
Proof. destruct schema; reflexivity. Qed.

(** The object loop, read as a whole. *)
Section FillShape.
Variable recur : VertexSchema -> Result ZodTypeAny.
Variable required_ : list string.

Lemma set_fresh {A} (fields : list (string * A)) key (v : A) :
  ~ In key (keys fields) -> Js.set fields key v = fields ++ [(key, v)].
Proof.
  induction fields as [|[k w] rest IH]; simpl; [reflexivity|].
  intros Hn. destruct (String.eqb_spec k key) as [->|Hne].
  - exfalso. apply Hn. now left.
  - f_equal. apply IH. intros Hin. apply Hn. now right.
Qed.


(** An assignment under another key than ["__proto__"], on a shape whose
    prototype is untouched, writes the own property. *)
Lemma assign_plain own key v :
  key <> "__proto__" ->
  assign (mkShape None own) key v = Ok (mkShape None (Js.set own key v)).
Proof.
  intros Hk. unfold assign, assignError. cbn [prototype ownFields].
  destruct (String.eqb_spec key "__proto__") as [->|_]; [now elim Hk|].
  destruct (get own key); reflexivity.
Qed.

Lemma fillShape_fresh entries : forall own,
  ~ In "__proto__" (keys entries) ->
  NoDup (keys own ++ keys entries) ->
  fillShape recur required_ entries (mkShape None own) =
  (fields <- mapThrow (fieldFor recur required_) entries ;;
   Ok (mkShape None (own ++ fields))).
Proof.
  induction entries as [|[key p] rest IH]; intros own Hproto Hnd; simpl.
  - now rewrite app_nil_r.
  - unfold fieldFor at 1. simpl.
    destruct (recur p) as [z|m]; simpl; [|reflexivity].
    assert (Hfresh : ~ In key (keys own)).
    { intros Hin. apply NoDup_remove_2 in Hnd. apply Hnd.
      apply in_or_app. now left. }
    rewrite assign_plain by (intros ->; apply Hproto; now left).
    cbn [Js.bind]. rewrite set_fresh by exact Hfresh.
    rewrite IH.
    + destruct (includes required_ key); simpl;
        destruct (mapThrow (fieldFor recur required_) rest); simpl;
        try reflexivity; now rewrite <- app_assoc.
    + intros Hin. apply Hproto. now right.
    + unfold keys in *. rewrite map_app. simpl. rewrite <- app_assoc. simpl.
      exact Hnd.
Qed.

Lemma fillShape_throw entries : forall own m,
  ~ In "__proto__" (keys entries) ->
  fillShape recur required_ entries (mkShape None own) = Throw m ->
  exists entry, In entry entries /\ recur (snd entry) = Throw m.
Proof.
  induction entries as [|[key p] rest IH]; intros own m Hproto; simpl;
    [discriminate|].
  destruct (recur p) as [z|m'] eqn:Ep; simpl.
  - rewrite assign_plain by (intros ->; apply Hproto; now left).
    cbn [Js.bind]. intros H.
    destruct (IH _ _ (fun Hin => Hproto (or_intror Hin)) H) as (e & He & Hm).
    eauto.
  - intros [= ->]. exists (key, p). auto.
Qed.

Lemma fillShape_ok entries : forall shape out,
  fillShape recur required_ entries shape = Ok out ->
  Forall (fun entry => exists z, recur (snd entry) = Ok z) entries.
Proof.
  induction entries as [|[key p] rest IH]; intros shape out; simpl;
    [constructor|].
  destruct (recur p) as [z|m'] eqn:Ep; simpl; [|discriminate].
  destruct (assign shape key _) as [shape'|]; simpl; [|discriminate].
  intros H. constructor; [simpl; eauto|]. eapply IH, H.
Qed.


End FillShape.

(* ===================================================================== *)
(** ** Failure of the reverse conversion *)
(* ===================================================================== *)

Lemma blames_malformed m n : blames m n -> malformed n = true.
Proof.
  unfold blames, malformed. intros [-> [[_ ->]|[_ ->]]]; simpl;
    [reflexivity|apply orb_true_r].
Qed.

Lemma Forall2_in_left {A B} (R : A -> B -> Prop) xs ys x :
  Forall2 R xs ys -> In x xs -> exists y, In y ys /\ R x y.
Proof.
  induction 1 as [|a b l l' Hab _ IH]; simpl; [tauto|].
  intros [<-|Hin]; [eauto|].
  destruct (IH Hin) as (y & Hy & Hr). eauto.
Qed.

Lemma reached_inv s n :
  Reached s n -> n = s \/ exists c, In c (visits s) /\ Reached c n.
Proof. inversion 1; subst; eauto. Qed.

(** The dispatch, by the kind of node. *)
Lemma union_dispatch s :
  isUnionNode s = true ->
  exists branches,
    anyOf s = Some branches /\ visits s = branches /\
    vertexSchemaToZod s =
    (unionVariants <- mapThrow vertexSchemaToZod branches ;;
     Ok (applyNullable
           (describeIfSet (union_ unionVariants) (description s)) s)).
Proof.
  rewrite vertexSchemaToZod_unfold. unfold isUnionNode, visits.
  destruct (anyOf s) as [[|b bs]|]; try discriminate. eauto.
Qed.

Lemma concrete_dispatch s :
  isUnionNode s = false ->
  vertexSchemaToZod s =
  match type s with
  | Some STRING => Ok (makeStringZod s)
  | Some NUMBER | Some INTEGER => Ok (makeNumberZod s)
  | Some BOOLEAN => Ok (makeBooleanZod s)
  | Some ARRAY => makeArrayZod s
  | Some OBJECT => makeObjectZod s
  | None => Throw (UNSUPPORTED_TYPE None)
  end.
Proof.
  rewrite vertexSchemaToZod_unfold. unfold isUnionNode.
  destruct (anyOf s) as [[|b bs]|]; try discriminate;
    destruct (type s) as [[]|]; reflexivity.
Qed.

Lemma concrete_visits s :
  isUnionNode s = false ->
  visits s =
  match type s with
  | Some ARRAY => match items s with Some it => [it] | None => [] end
  | Some OBJECT =>
      match properties s with Some ps => map snd ps | None => [] end
  | _ => []
  end.
Proof.
  unfold isUnionNode, visits.
  destruct (anyOf s) as [[|b bs]|]; try discriminate; reflexivity.
Qed.

(** A node without children that is well formed hides no defect. *)
Lemma only_root s :
  malformed s = false -> visits s = [] ->
  forall n, Reached s n -> malformed n = false.
Proof.
  intros Hm Hv n Hn. apply reached_inv in Hn as [->|(c & Hc & _)];
    [exact Hm|]. rewrite Hv in Hc. destruct Hc.
Qed.

Lemma protoFree_union s bs :
  isUnionNode s = true -> anyOf s = Some bs ->
  protoFree s = forallb protoFree bs.
Proof.
  unfold isUnionNode. intros Hu Ea. destruct s; cbn in *. subst.
  destruct bs; [discriminate|reflexivity].
Qed.

Lemma protoFree_concrete s :
  isUnionNode s = false ->
  protoFree s =
  match type s with
  | Some ARRAY =>
      match items s with Some it => protoFree it | None => true end
  | Some OBJECT =>
      match properties s with
      | Some ps =>
          forallb (fun kp => negb (String.eqb (fst kp) "__proto__")
                             && protoFree (snd kp)) ps
      | None => true
      end
  | _ => true
  end.
Proof.
  unfold isUnionNode. intros Hu. destruct s; cbn in *.
  match goal with
  | H : match ?a with _ => _ end = false |- _ =>
      destruct a as [[|? ?]|]; [reflexivity|discriminate|reflexivity]
  end.
Qed.

Lemma protoFree_properties ps :
  forallb (fun kp => negb (String.eqb (fst kp) "__proto__")
                     && protoFree (snd kp)) ps = true ->
  ~ In "__proto__" (keys ps)
  /\ forall kp, In kp ps -> protoFree (snd kp) = true.
Proof.
  rewrite forallb_forall. intros H. split.
  - intros Hin. unfold keys in Hin. apply in_map_iff in Hin as (kp & Hk & Hin).
    apply H in Hin. apply andb_prop in Hin as [Hne _].
    rewrite Hk in Hne. discriminate Hne.
  - intros kp Hin. apply H in Hin. now apply andb_prop in Hin as [_ Hp].
Qed.

Lemma reverse_outcome (s : VertexSchema) :
  protoFree s = true ->
  match vertexSchemaToZod s with
  | Ok _ => forall n, Reached s n -> malformed n = false
  | Throw m => exists n, Reached s n /\ blames m n
  end.
Proof.
  induction s as [s IHitems IHprops IHany] using VertexSchema_ind.
  intros Hfree.
  destruct (isUnionNode s) eqn:Hu.
  - (* a union: every branch is converted *)
    destruct (union_dispatch s Hu) as (bs & Ea & Hv & ->).
    rewrite (protoFree_union s Hu Ea), forallb_forall in Hfree.
    specialize (IHany _ Ea). rewrite Forall_forall in IHany.
    assert (IHany' : forall c, In c bs ->
              match vertexSchemaToZod c with
              | Ok _ => forall n, Reached c n -> malformed n = false
              | Throw m => exists n, Reached c n /\ blames m n
              end) by (intros c Hc; apply (IHany c Hc), Hfree, Hc).
    clear IHany. rename IHany' into IHany.
    destruct (mapThrow vertexSchemaToZod bs) as [zs|m] eqn:Em; simpl.
    + intros n Hn. apply reached_inv in Hn as [->|(c & Hc & Hn)].
      * unfold malformed. now rewrite Hu.
      * rewrite Hv in Hc. apply mapThrow_ok in Em.
        destruct (@Forall2_in_left _ _ _ _ _ _ Em Hc) as (z & _ & Hz).
        specialize (IHany c Hc). rewrite Hz in IHany. now apply IHany.
    + apply mapThrow_throw in Em as (c & Hc & Hm).
      specialize (IHany c Hc). rewrite Hm in IHany.
      destruct IHany as (n & Hn & Hb).
      exists n. split; [|exact Hb].
      apply reached_child with c; [now rewrite Hv|exact Hn].
  - rewrite (concrete_dispatch s Hu).
    rewrite (protoFree_concrete s Hu) in Hfree.
    pose proof (concrete_visits s Hu) as Hv. clear IHany.
    assert (Hroot : arrayWithoutItems s || untyped s = false ->
                    malformed s = false).
    { unfold malformed. intros ->. apply andb_false_r. }
    destruct (type s) as [[]|] eqn:Et.
    + apply only_root; [|exact Hv].
      apply Hroot. unfold arrayWithoutItems, untyped. now rewrite Et.
    + apply only_root; [|exact Hv].
      apply Hroot. unfold arrayWithoutItems, untyped. now rewrite Et.
    + apply only_root; [|exact Hv].
      apply Hroot. unfold arrayWithoutItems, untyped. now rewrite Et.
    + apply only_root; [|exact Hv].
      apply Hroot. unfold arrayWithoutItems, untyped. now rewrite Et.
    + (* ARRAY *)
      unfold makeArrayZod, makeArrayZodOver.
      destruct (items s) as [it|] eqn:Ei.
      * specialize (IHitems _ eq_refl Hfree).
        destruct (vertexSchemaToZod it) as [z|m] eqn:Ez; simpl.
        -- intros n Hn. apply reached_inv in Hn as [->|(c & Hc & Hn)].
           ++ apply Hroot. unfold arrayWithoutItems, untyped.
              now rewrite Et, Ei.
           ++ rewrite Hv in Hc. destruct Hc as [<-|[]]. now apply IHitems.
        -- destruct IHitems as (n & Hn & Hb). exists n. split; [|exact Hb].
           apply reached_child with it; [rewrite Hv; now left|exact Hn].
      * exists s. split; [apply reached_root|].
        split; [exact Hu|left; split; [reflexivity|]].
        unfold arrayWithoutItems. now rewrite Et, Ei.
    + (* OBJECT *)
      unfold makeObjectZod, makeObjectZodOver.
      set (req := match required s with Some r => r | None => [] end).
      assert (Hs : malformed s = false).
      { apply Hroot. unfold arrayWithoutItems, untyped. now rewrite Et. }
      destruct (properties s) as [ps|] eqn:Ep.
      * specialize (IHprops _ eq_refl). rewrite Forall_forall in IHprops.
        apply protoFree_properties in Hfree as [Hkeys Hfree].
        destruct (fillShape vertexSchemaToZod req ps emptyShape)
          as [shape|m] eqn:Ef; simpl.
        -- intros n Hn. apply reached_inv in Hn as [->|(c & Hc & Hn)];
             [exact Hs|].
           rewrite Hv in Hc. apply in_map_iff in Hc as (e & <- & He).
           apply fillShape_ok in Ef. rewrite Forall_forall in Ef.
           destruct (Ef e He) as (z & Hz).
           specialize (IHprops e He (Hfree e He)).
           rewrite Hz in IHprops. now apply IHprops.
        -- apply fillShape_throw in Ef as (e & He & Hm); [|exact Hkeys].
           specialize (IHprops e He (Hfree e He)). rewrite Hm in IHprops.
           destruct IHprops as (n & Hn & Hb).
           exists n. split; [|exact Hb].
           apply reached_child with (snd e); [|exact Hn].
           rewrite Hv. now apply in_map.
      * simpl. apply only_root; [exact Hs|exact Hv].
    + exists s. split; [apply reached_root|].
      split; [exact Hu|right; split; [reflexivity|]].
      unfold untyped. now rewrite Et.
Qed.

(* ===================================================================== *)
(** ** The verdict of the nodes the reverse conversion builds *)
(* ===================================================================== *)

Lemma zdescription_describeIfSet z s :
  zdescription z = None ->
  zdescription (describeIfSet z (description s)) = descriptionKept s.
Proof.
  unfold describeIfSet, descriptionKept. intros Hz.
  destruct (description s) as [d|]; [|exact Hz].
  destruct (truthy (Some d)); [|exact Hz]. destruct z; reflexivity.
Qed.

Lemma applyNullable_cases z s :
  applyNullable z s = if nullableSet s then ZodNullable (zdescription z) z else z.
Proof.
  unfold applyNullable, nullableSet, nullable_.
  destruct (nullable s) as [[]|]; reflexivity.
Qed.

Section Verdicts.
Context {formats : StringFormats}.

Lemma accepts_describe z text v : accepts (describe z text) v = accepts z v.
Proof. destruct z; reflexivity. Qed.

Lemma accepts_describeIfSet z text v :
  accepts (describeIfSet z text) v = accepts z v.
Proof.
  unfold describeIfSet. destruct text as [d|]; [|reflexivity].
  destruct (truthy (Some d)); [apply accepts_describe|reflexivity].
Qed.


Lemma accepts_applyNullable z s v :
  accepts (applyNullable z s) v = (nullableSet s && isNull v) || accepts z v.
Proof.
  rewrite applyNullable_cases. destruct (nullableSet s); simpl;
    [destruct v; reflexivity|reflexivity].
Qed.


Lemma accepts_union d os v :
  accepts (ZodUnion d os) v = existsb (fun o => accepts o v) os.
Proof.
  simpl. induction os as [|o rest IH]; simpl; [reflexivity|now rewrite IH].
Qed.


End Verdicts.

(* ===================================================================== *)
(** ** C3: when the reverse conversion throws *)
(* ===================================================================== *)

(** C3 (amended): on a tree in which no object reached has an own
    property key ["__proto__"], the reverse conversion throws exactly when
    the traversal reaches a node that is not read as a union and that
    either has type ARRAY and no items or has no type; the message thrown
    is the one that names the defect of such a node.  A call that throws
    returns nothing: the outcome is either a node or a message.  (With a
    key ["__proto__"] the object loop replaces the prototype of the shape
    it builds, and a later assignment can throw a [TypeError] of the
    engine; see [proto_then_getter_throws].) *)
Theorem reverse_throws_iff_malformed (s : VertexSchema) :
  protoFree s = true ->
  ((exists m, vertexSchemaToZod s = Throw m) <->
   (exists n, Reached s n /\ malformed n = true))
  /\ (forall m, vertexSchemaToZod s = Throw m ->
      exists n, Reached s n /\ isUnionNode n = false /\
        ((m = "ARRAY type schema must have 'items'"
          /\ type n = Some ARRAY /\ items n = None)
         \/ (m = "Unsupported or missing schema.type: undefined"
             /\ type n = None))).
Proof.
  intros Hfree. pose proof (reverse_outcome s Hfree) as H. split; [split|].
  - intros [m Hm]. rewrite Hm in H. destruct H as (n & Hn & Hb).
    exists n. split; [exact Hn|]. eapply blames_malformed, Hb.
  - intros (n & Hn & Hbad).
    destruct (vertexSchemaToZod s) as [z|m]; [|eauto].
    rewrite (H n Hn) in Hbad. discriminate.
  - intros m Hm. rewrite Hm in H. destruct H as (n & Hn & Hu & Hb).
    exists n. split; [exact Hn|]. split; [exact Hu|].
    unfold arrayWithoutItems, untyped in Hb.
    destruct Hb as [[-> Ha]|[-> Ht]].
    + left. split; [reflexivity|].
      destruct (type n) as [[]|]; try discriminate.
      destruct (items n); [discriminate|]. split; reflexivity.
    + right. split; [reflexivity|].
      destruct (type n); [discriminate|reflexivity].
Qed.

(* ===================================================================== *)
(** ** C4: a node with a non-empty [anyOf] is a union *)
(* ===================================================================== *)

Section Unions.
Context {formats : StringFormats}.

Lemma union_outcome (s b : VertexSchema) (bs : list VertexSchema) :
  anyOf s = Some (b :: bs) ->
  (forall t, vertexSchemaToZod (setType t s) = vertexSchemaToZod s)
  /\ (Forall (fun x => isOk (vertexSchemaToZod x) = true) (b :: bs) ->
      isOk (vertexSchemaToZod s) = true)
  /\ match vertexSchemaToZod s with
     | Throw m => exists c, In c (b :: bs) /\ vertexSchemaToZod c = Throw m
     | Ok z =>
         exists variants,
           Forall2 (fun x y => vertexSchemaToZod x = Ok y) (b :: bs) variants
           /\ z = (let union := ZodUnion (descriptionKept s) variants in
                   if nullableSet s
                   then ZodNullable (descriptionKept s) union
                   else union)
           /\ forall v,
               accepts z v =
               (nullableSet s && isNull v)
               || existsb (fun y => accepts y v) variants
     end.
Proof.
  intros Ea. split; [|split].
  - intros t. rewrite !vertexSchemaToZod_unfold.
    destruct s; simpl in *. rewrite Ea. reflexivity.
  - intros Hall. rewrite vertexSchemaToZod_unfold, Ea.
    destruct (@mapThrow_total _ _ vertexSchemaToZod (b :: bs)) as [ys Hys].
    + eapply Forall_impl; [|exact Hall]. intros x Hx. simpl in Hx.
      destruct (vertexSchemaToZod x); [eauto|discriminate Hx].
    + rewrite Hys. reflexivity.
  - rewrite vertexSchemaToZod_unfold, Ea.
    destruct (mapThrow vertexSchemaToZod (b :: bs)) as [variants|m] eqn:Em.
    + cbn [Js.bind]. exists variants. split; [now apply mapThrow_ok|].
      assert (Hd : describeIfSet (union_ variants) (description s)
                   = ZodUnion (descriptionKept s) variants).
      { unfold describeIfSet, descriptionKept, union_.
        destruct (description s) as [d|]; [|reflexivity].
        destruct (truthy (Some d)); reflexivity. }
      split.
      * rewrite applyNullable_cases, Hd. reflexivity.
      * intros v. rewrite accepts_applyNullable, Hd, accepts_union.
        reflexivity.
    + cbn [Js.bind]. now apply mapThrow_throw.
Qed.

(** C4: when [anyOf] is present and not empty the node is converted as a
    union whatever its [type]: the branches are converted in their order
    (the first failure is the failure of the whole), the union is built
    over the converted branches in that order, it carries the node's
    description, and the nullable wrapper, if any, is put around the
    union. *)
Theorem anyOf_converts_to_union (s b : VertexSchema) (bs : list VertexSchema) :
  anyOf s = Some (b :: bs) ->
  (forall t, vertexSchemaToZod (setType t s) = vertexSchemaToZod s)
  /\ (Forall (fun x => isOk (vertexSchemaToZod x) = true) (b :: bs) ->
      isOk (vertexSchemaToZod s) = true)
  /\ match vertexSchemaToZod s with
     | Throw m => exists c, In c (b :: bs) /\ vertexSchemaToZod c = Throw m
     | Ok z =>
         exists variants,
           Forall2 (fun x y => vertexSchemaToZod x = Ok y) (b :: bs) variants
           /\ z = (let union := ZodUnion (descriptionKept s) variants in
                   if nullableSet s
                   then ZodNullable (descriptionKept s) union
                   else union)
           /\ forall v,
               accepts z v =
               (nullableSet s && isNull v)
               || existsb (fun y => accepts y v) variants
     end.
Proof. exact (@union_outcome s b bs). Qed.

(** C10: a union of one branch is built like any other; the conversion
    fails only if the branch fails, and the one-variant union accepts
    exactly what the converted branch accepts, the node's description and
    nullable flag being applied on top. *)
Theorem single_branch_union (s b : VertexSchema) :
  anyOf s = Some [b] ->
  match vertexSchemaToZod b with
  | Throw m => vertexSchemaToZod s = Throw m
  | Ok zb =>
      vertexSchemaToZod s =
      Ok (let union := ZodUnion (descriptionKept s) [zb] in
          if nullableSet s then ZodNullable (descriptionKept s) union
          else union)
      /\ (forall v, accepts (ZodUnion (descriptionKept s) [zb]) v = accepts zb v)
      /\ (forall z, vertexSchemaToZod s = Ok z ->
          forall v, accepts z v = (nullableSet s && isNull v) || accepts zb v)
  end.
Proof.
  intros Ea.
  destruct (union_outcome s Ea) as (_ & _ & H).
  destruct (vertexSchemaToZod b) as [zb|m] eqn:Eb.
  - destruct (vertexSchemaToZod s) as [z|m] eqn:Es.
    + destruct H as (variants & Hv & Hz & Hacc).
      inversion Hv as [|x y l l' Hxy Hrest]; subst.
      inversion Hrest; subst.
      rewrite Eb in Hxy. injection Hxy as <-.
      split; [reflexivity|]. split.
      * intros v. rewrite accepts_union. simpl. apply orb_false_r.
      * intros z [= <-] v. rewrite Hacc. simpl. now rewrite orb_false_r.
    + destruct H as (c & [<-|[]] & Hc). congruence.
  - rewrite vertexSchemaToZod_unfold, Ea. simpl. rewrite Eb. reflexivity.
Qed.

End Unions.

(* ===================================================================== *)
(** ** C5, C8, C9: STRING nodes *)
(* ===================================================================== *)

Ltac by_description s :=
  unfold describeIfSet, descriptionKept;
  destruct (description s) as [?d|]; [destruct (truthy (Some d))|];
  reflexivity.

Lemma described_enum s vs :
  describeIfSet (enum_ vs) (description s) = ZodEnum (descriptionKept s) vs.
Proof. by_description s. Qed.

Lemma described_literal s v :
  describeIfSet (literal_ v) (description s)
  = ZodLiteral (descriptionKept s) (LitString v).
Proof. by_description s. Qed.

Lemma described_string s cs :
  describeIfSet (ZodString None cs) (description s)
  = ZodString (descriptionKept s) cs.
Proof. by_description s. Qed.

Lemma applyNullable_wrapped z s :
  zdescription z = descriptionKept s -> applyNullable z s = wrapped s z.
Proof. intros H. rewrite applyNullable_cases, H. reflexivity. Qed.

Lemma includes_In vs x : includes vs x = true <-> In x vs.
Proof.
  unfold includes. rewrite existsb_exists. split.
  - intros (y & Hy & He). apply String.eqb_eq in He. now subst.
  - intros H. exists x. split; [exact H|apply String.eqb_refl].
Qed.

Lemma hasDatetimeFormat_spec s :
  hasDatetimeFormat s = true <-> format s = Some "date-time".
Proof.
  unfold hasDatetimeFormat. destruct (format s) as [f|].
  - rewrite String.eqb_eq. split; [now intros ->|now intros [= ->]].
  - split; discriminate.
Qed.

(** [makeStringZod] when [enum] does not decide: the plain string node. *)
Lemma makeStringZod_plain s :
  enum s = None \/ enum s = Some [] ->
  makeStringZod s =
  wrapped s (ZodString (descriptionKept s)
                       (if hasDatetimeFormat s then [CkDatetime] else [])).
Proof.
  intros He. unfold makeStringZod, hasDatetimeFormat.
  assert (Hf : (match format s with
                | Some f =>
                    if String.eqb f "date-time" then datetime string_
                    else string_
                | None => string_
                end)
               = ZodString None
                   (if match format s with
                       | Some f => String.eqb f "date-time"
                       | None => false
                       end then [CkDatetime] else [])).
  { destruct (format s) as [f|]; [|reflexivity].
    destruct (String.eqb f "date-time"); reflexivity. }
  destruct He as [-> | ->]; rewrite Hf, described_string;
    now apply applyNullable_wrapped.
Qed.

Section Strings.
Context {formats : StringFormats}.

Lemma accepts_wrapped_string s node x :
  accepts (wrapped s node) (VStr x) = accepts node (VStr x).
Proof. unfold wrapped. destruct (nullableSet s); reflexivity. Qed.

(** C5: a STRING node whose [enum] has more than one value becomes the
    enumeration of those values in their order, and the strings it accepts
    are exactly those; with exactly one value it becomes the literal of
    that value, and the only string it accepts is that value.  Such a node
    is a STRING node of the dispatch when it is not read as a union. *)
Theorem string_enum_converts (s : VertexSchema) (vs : list string) :
  enum s = Some vs ->
  ((1 < List.length vs)%nat ->
   makeStringZod s = wrapped s (ZodEnum (descriptionKept s) vs)
   /\ forall x, accepts (makeStringZod s) (VStr x) = true <-> In x vs)
  /\ (forall only, vs = [only] ->
      makeStringZod s
      = wrapped s (ZodLiteral (descriptionKept s) (LitString only))
      /\ forall x, accepts (makeStringZod s) (VStr x) = true <-> x = only)
  /\ (isUnionNode s = false -> type s = Some STRING ->
      vertexSchemaToZod s = Ok (makeStringZod s)).
Proof.
  intros He. split; [|split].
  - intros Hlen.
    destruct vs as [|v1 [|v2 rest]]; simpl in Hlen; try lia.
    assert (Hm : makeStringZod s
                 = wrapped s (ZodEnum (descriptionKept s) (v1 :: v2 :: rest))).
    { unfold makeStringZod. rewrite He, described_enum.
      now apply applyNullable_wrapped. }
    split; [exact Hm|].
    intros x. rewrite Hm, accepts_wrapped_string. cbn [accepts].
    apply includes_In.
  - intros only ->.
    assert (Hm : makeStringZod s
                 = wrapped s (ZodLiteral (descriptionKept s) (LitString only))).
    { unfold makeStringZod. rewrite He, described_literal.
      now apply applyNullable_wrapped. }
    split; [exact Hm|].
    intros x. rewrite Hm, accepts_wrapped_string. simpl.
    apply String.eqb_eq.
  - intros Hu Ht. rewrite (concrete_dispatch s Hu), Ht. reflexivity.
Qed.

(** C8: a STRING node without [enum] becomes a string node; the date-time
    check is attached exactly when [format] is ["date-time"], and then a
    string is accepted exactly when it passes that check; with any other
    format, ["date"] included, or with none, no check is attached and
    every string is accepted. *)
Theorem string_format_converts (s : VertexSchema) :
  enum s = None ->
  (format s = Some "date-time" ->
   makeStringZod s = wrapped s (ZodString (descriptionKept s) [CkDatetime])
   /\ forall x, accepts (makeStringZod s) (VStr x) = datetimeRegex x)
  /\ (format s <> Some "date-time" ->
      makeStringZod s = wrapped s (ZodString (descriptionKept s) [])
      /\ forall x, accepts (makeStringZod s) (VStr x) = true)
  /\ (isUnionNode s = false -> type s = Some STRING ->
      vertexSchemaToZod s = Ok (makeStringZod s)).
Proof.
  intros He.
  pose proof (makeStringZod_plain s (or_introl He)) as Hm.
  split; [|split].
  - intros Hf. apply hasDatetimeFormat_spec in Hf. rewrite Hf in Hm.
    split; [exact Hm|].
    intros x. rewrite Hm, accepts_wrapped_string. simpl. apply andb_true_r.
  - intros Hf.
    destruct (hasDatetimeFormat s) eqn:Hd;
      [exfalso; now apply Hf, hasDatetimeFormat_spec|].
    split; [exact Hm|].
    intros x. rewrite Hm, accepts_wrapped_string. reflexivity.
  - intros Hu Ht. rewrite (concrete_dispatch s Hu), Ht. reflexivity.
Qed.

(** C9: an [enum] that is present but empty changes nothing: the node is
    converted as if [enum] were absent, to the plain string node (with the
    date-time check only for the format ["date-time"]), and the conversion
    does not throw. *)
Theorem empty_enum_is_ignored (s : VertexSchema) :
  enum s = Some [] ->
  makeStringZod s = makeStringZod (setEnum None s)
  /\ makeStringZod s
     = wrapped s (ZodString (descriptionKept s)
                            (if hasDatetimeFormat s then [CkDatetime] else []))
  /\ (forall x, accepts (makeStringZod s) (VStr x)
                = if hasDatetimeFormat s then datetimeRegex x else true)
  /\ (isUnionNode s = false -> type s = Some STRING ->
      vertexSchemaToZod s = Ok (makeStringZod s)
      /\ vertexSchemaToZod s = vertexSchemaToZod (setEnum None s)).
Proof.
  intros He.
  pose proof (makeStringZod_plain s (or_intror He)) as Hm.
  assert (Hsame : makeStringZod s = makeStringZod (setEnum None s)).
  { unfold makeStringZod. rewrite He. destruct s; reflexivity. }
  split; [exact Hsame|]. split; [exact Hm|]. split.
  - intros x. rewrite Hm, accepts_wrapped_string.
    destruct (hasDatetimeFormat s); simpl; [apply andb_true_r|reflexivity].
  - intros Hu Ht. split.
    + rewrite (concrete_dispatch s Hu), Ht. reflexivity.
    + rewrite (concrete_dispatch s Hu), Ht.
      rewrite (concrete_dispatch (setEnum None s));
        [|destruct s; exact Hu].
      replace (type (setEnum None s)) with (type s) by (destruct s; reflexivity).
      rewrite Ht, Hsame. reflexivity.
Qed.

End Strings.

(* ===================================================================== *)
(** ** C7: the nullable wrapper comes last *)
(* ===================================================================== *)

Ltac projections :=
  cbn [type format description nullable items enum properties required
       example propertyOrdering anyOf minItems maxItems minimum maximum].

(** The conversion of a node is the conversion of the same node with
    [nullable] cleared, wrapped by [applyNullable]. *)
Lemma nullable_factors (s : VertexSchema) (flag : option bool) :
  vertexSchemaToZod (setNullable flag s) =
  (inner <- vertexSchemaToZod (setNullable None s) ;;
   Ok (applyNullable inner (setNullable flag s))).
Proof.
  rewrite !vertexSchemaToZod_unfold.
  destruct s as [t f d nu it e ps r ex po bs mi ma lo hi].
  unfold setNullable. projections.
  destruct bs as [[|b bs]|].
  2:{ destruct (mapThrow vertexSchemaToZod (b :: bs)); reflexivity. }
  all: destruct t as [[]|]; try reflexivity.
  all: try (unfold makeStringZod; projections;
            destruct e as [[|? [|? ?]]|]; reflexivity).
  all: try (unfold makeArrayZod, makeArrayZodOver; projections;
            destruct it as [it|]; [|reflexivity];
            destruct (vertexSchemaToZod it); reflexivity).
  all: unfold makeObjectZod, makeObjectZodOver; projections;
    destruct ps as [ps|]; cbv beta zeta;
    destruct (fillShape _ _ _ _); reflexivity.
Qed.

Lemma setNullable_same s : setNullable (nullable s) s = s.
Proof. destruct s; reflexivity. Qed.

(** Before the wrapper is put on, the node carries the description. *)
Lemma unwrapped_description (s : VertexSchema) (z : ZodTypeAny) :
  nullableSet s = false ->
  vertexSchemaToZod s = Ok z -> zdescription z = descriptionKept s.
Proof.
  intros Hn. rewrite vertexSchemaToZod_unfold.
  assert (Ha : forall x, applyNullable x s = x).
  { intros x. now rewrite applyNullable_cases, Hn. }
  destruct (anyOf s) as [[|b bs]|].
  2:{ destruct (mapThrow vertexSchemaToZod (b :: bs)); [|discriminate].
      cbn [Js.bind]. intros [= <-]. rewrite Ha.
      now apply zdescription_describeIfSet. }
  all: destruct (type s) as [[]|] eqn:Et; try discriminate.
  all: try (unfold makeStringZod; intros [= <-];
            destruct (enum s) as [[|? [|? ?]]|]; cbv zeta; rewrite Ha;
            apply zdescription_describeIfSet;
            try reflexivity;
            (destruct (format s) as [f|];
             [destruct (String.eqb f "date-time")|]; reflexivity)).
  all: try (unfold makeNumberZod; intros [= <-]; cbv zeta; rewrite Ha;
            apply zdescription_describeIfSet; rewrite Et;
            destruct (minimum s), (maximum s); reflexivity).
  all: try (unfold makeBooleanZod; intros [= <-]; cbv zeta; rewrite Ha;
            now apply zdescription_describeIfSet).
  all: try (unfold makeArrayZod, makeArrayZodOver;
            destruct (items s) as [it|]; [|discriminate];
            destruct (vertexSchemaToZod it); [|discriminate];
            cbn [Js.bind]; intros [= <-]; cbv zeta; rewrite Ha;
            apply zdescription_describeIfSet;
            destruct (minItems s), (maxItems s); reflexivity).
  all: unfold makeObjectZod, makeObjectZodOver;
    destruct (properties s); cbv beta zeta;
    (destruct (fillShape _ _ _ _); [|discriminate]);
    cbn [Js.bind]; intros [= <-]; cbv zeta; rewrite Ha;
    now apply zdescription_describeIfSet.
Qed.

Section Nullable.
Context {formats : StringFormats}.

(** C7: whatever the shape of the node (unions included), the result is
    the node converted without the flag, which already carries the
    description, and the nullable wrapper is put around it exactly when
    [nullable] is [true]; the wrapped node accepts [null] and otherwise
    what the unwrapped node accepts; without the flag nothing is added. *)
Theorem nullable_is_applied_last (s : VertexSchema) (z : ZodTypeAny) :
  vertexSchemaToZod s = Ok z ->
  exists inner,
    vertexSchemaToZod (setNullable None s) = Ok inner
    /\ zdescription inner = descriptionKept s
    /\ (nullable s = Some true ->
        z = ZodNullable (descriptionKept s) inner
        /\ accepts z VNull = true
        /\ forall v, accepts z v = isNull v || accepts inner v)
    /\ (nullable s <> Some true -> z = inner).
Proof.
  intros Hz.
  pose proof (nullable_factors s (nullable s)) as Hf.
  rewrite setNullable_same, Hz in Hf.
  destruct (vertexSchemaToZod (setNullable None s)) as [inner|m] eqn:Ei;
    [|discriminate].
  cbn [Js.bind] in Hf. injection Hf as ->.
  assert (Hd : zdescription inner = descriptionKept s).
  { replace (descriptionKept s) with (descriptionKept (setNullable None s))
      by (destruct s; reflexivity).
    apply unwrapped_description; [destruct s; reflexivity|exact Ei]. }
  exists inner. split; [reflexivity|]. split; [exact Hd|]. split.
  - intros Hn. unfold applyNullable, nullable_. rewrite Hn, Hd.
    split; [reflexivity|]. split; [reflexivity|].
    intros v. destruct v; reflexivity.
  - intros Hn. unfold applyNullable.
    destruct (nullable s) as [[]|]; [now elim Hn|reflexivity|reflexivity].
Qed.

End Nullable.

(* ===================================================================== *)
(** ** C6: OBJECT nodes *)
(* ===================================================================== *)

Lemma object_made s shape :
  applyNullable (describeIfSet (object_ shape) (description s)) s
  = wrapped s (ZodObject (descriptionKept s) shape).
Proof.
  assert (Hd : describeIfSet (object_ shape) (description s)
               = ZodObject (descriptionKept s) shape) by by_description s.
  rewrite Hd. now apply applyNullable_wrapped.
Qed.

(** [makeObjectZod] over an object whose keys are distinct, as the keys
    of an object are, and none of which is ["__proto__"]: the fields are
    converted one by one, in order. *)
Lemma makeObjectZod_fields (s : VertexSchema) :
  ~ In "__proto__" (keys (propertiesOf s)) ->
  NoDup (keys (propertiesOf s)) ->
  makeObjectZod s =
  (shape <- mapThrow (fieldFor vertexSchemaToZod (requiredOf s))
                     (propertiesOf s) ;;
   Ok (wrapped s (ZodObject (descriptionKept s) shape))).
Proof.
  intros Hproto Hnd.
  unfold makeObjectZod, makeObjectZodOver, propertiesOf, emptyShape in *.
  fold (requiredOf s).
  destruct (properties s) as [ps|]; cbv zeta.
  - rewrite fillShape_fresh by assumption.
    destruct (mapThrow _ ps); simpl; [now rewrite object_made|reflexivity].
  - simpl. now rewrite object_made.
Qed.


Section Objects.
Context {formats : StringFormats}.


(** No node built by the reverse conversion accepts [undefined] or a
    function. *)
Lemma reverse_rejects_inert (s : VertexSchema) :
  forall z, vertexSchemaToZod s = Ok z ->
            accepts z VUndefined = false /\ accepts z VFunction = false.
Proof.
  induction s as [s IHitems IHprops IHany] using VertexSchema_ind.
  intros z.
  destruct (isUnionNode s) eqn:Hu.
  - destruct (union_dispatch s Hu) as (bs & Ea & _ & ->).
    specialize (IHany _ Ea).
    destruct (mapThrow vertexSchemaToZod bs) as [zs|m] eqn:Em;
      [|discriminate].
    cbn [Js.bind]. intros [= <-].
    unfold union_.
    rewrite !accepts_applyNullable, !accepts_describeIfSet, !accepts_union.
    rewrite !andb_false_r. cbn [orb].
    apply mapThrow_ok in Em. clear Ea Hu.
    induction Em as [|x y l l' Hxy _ IH]; [split; reflexivity|].
    inversion IHany; subst. cbn [existsb].
    destruct (H1 _ Hxy) as [-> ->]. now apply IH.
  - rewrite (concrete_dispatch s Hu). clear IHany.
    destruct (type s) as [[]|] eqn:Et; try discriminate.
    + intros [= <-]. unfold makeStringZod.
      destruct (enum s) as [[|? [|? ?]]|]; cbv zeta;
        rewrite !accepts_applyNullable, !accepts_describeIfSet, !andb_false_r;
        try (split; reflexivity);
        (destruct (format s) as [f|];
         [destruct (String.eqb f "date-time")|]; split; reflexivity).
    + intros [= <-]. unfold makeNumberZod. cbv zeta.
      rewrite !accepts_applyNullable, !accepts_describeIfSet, !andb_false_r, Et.
      destruct (minimum s), (maximum s); split; reflexivity.
    + intros [= <-]. unfold makeNumberZod. cbv zeta.
      rewrite !accepts_applyNullable, !accepts_describeIfSet, !andb_false_r, Et.
      destruct (minimum s), (maximum s); split; reflexivity.
    + intros [= <-]. unfold makeBooleanZod. cbv zeta.
      rewrite !accepts_applyNullable, !accepts_describeIfSet, !andb_false_r.
      split; reflexivity.
    + unfold makeArrayZod, makeArrayZodOver.
      destruct (items s) as [it|]; [|discriminate].
      destruct (vertexSchemaToZod it); [|discriminate].
      cbn [Js.bind]. intros [= <-]. cbv zeta.
      rewrite !accepts_applyNullable, !accepts_describeIfSet, !andb_false_r.
      destruct (minItems s), (maxItems s); split; reflexivity.
    + unfold makeObjectZod, makeObjectZodOver.
      destruct (properties s); cbv beta zeta;
        (destruct (fillShape _ _ _ _); [|discriminate]);
        cbn [Js.bind]; intros [= <-];
        rewrite !accepts_applyNullable, !accepts_describeIfSet, !andb_false_r;
        split; reflexivity.
Qed.

(** No node built by the reverse conversion accepts [undefined]: a field
    is optional only through the wrapper the object loop puts on it. *)
Lemma reverse_rejects_undefined (s : VertexSchema) :
  forall z, vertexSchemaToZod s = Ok z -> accepts z VUndefined = false.
Proof. intros z Hz. now destruct (reverse_rejects_inert s Hz). Qed.

(** X12: an OBJECT node none of whose property keys is ["__proto__"] is
    converted field by field in the key order of [properties];
    [propertyOrdering] plays no part; each value is converted recursively
    (the first failure is the failure of the whole) and is wrapped as
    optional, so that it accepts a missing value, exactly when its key is
    not listed in [required]; the result is the object node over these
    fields, in that order. *)
Theorem object_fields_convert (s : VertexSchema) :
  ~ In "__proto__" (keys (propertiesOf s)) ->
  NoDup (keys (propertiesOf s)) ->
  (forall po, makeObjectZod (setPropertyOrdering po s) = makeObjectZod s)
  /\ (Forall (fun kp => isOk (vertexSchemaToZod (snd kp)) = true)
             (propertiesOf s) ->
      isOk (makeObjectZod s) = true)
  /\ match makeObjectZod s with
     | Throw m =>
         exists kp, In kp (propertiesOf s)
                    /\ vertexSchemaToZod (snd kp) = Throw m
     | Ok z =>
         exists shape,
           z = wrapped s (ZodObject (descriptionKept s) shape)
           /\ keys shape = keys (propertiesOf s)
           /\ Forall2
                (fun kp kf =>
                   fst kf = fst kp
                   /\ exists zp,
                       vertexSchemaToZod (snd kp) = Ok zp
                       /\ snd kf = (if includes (requiredOf s) (fst kp)
                                    then zp
                                    else ZodOptional (zdescription zp) zp)
                       /\ accepts (snd kf) VUndefined
                          = negb (includes (requiredOf s) (fst kp)))
                (propertiesOf s) shape
     end
  /\ (isUnionNode s = false -> type s = Some OBJECT ->
      vertexSchemaToZod s = makeObjectZod s).
Proof.
  intros Hproto Hnd. split; [|split; [|split]].
  - intros po. destruct s; reflexivity.
  - intros Hall. rewrite makeObjectZod_fields by assumption.
    destruct (@mapThrow_total _ _ (fieldFor vertexSchemaToZod (requiredOf s))
                              (propertiesOf s)) as [shape Hs].
    + eapply Forall_impl; [|exact Hall]. intros kp Hkp. simpl in Hkp.
      unfold fieldFor. destruct (vertexSchemaToZod (snd kp));
        [simpl; eauto|discriminate Hkp].
    + rewrite Hs. reflexivity.
  - rewrite makeObjectZod_fields by assumption.
    destruct (mapThrow _ (propertiesOf s)) as [shape|m] eqn:Em;
      cbn [Js.bind].
    + exists shape. split; [reflexivity|].
      apply mapThrow_ok in Em. clear Hnd Hproto. split.
      * induction Em as [|kp kf l l' Hf _ IH]; [reflexivity|].
        unfold keys in *. simpl. rewrite IH. f_equal.
        unfold fieldFor in Hf.
        destruct (vertexSchemaToZod (snd kp)); [|discriminate].
        simpl in Hf. now injection Hf as <-.
      * eapply Forall2_impl; [|exact Em].
        intros kp kf Hf. unfold fieldFor in Hf.
        destruct (vertexSchemaToZod (snd kp)) as [zp|] eqn:Ez; [|discriminate].
        simpl in Hf. injection Hf as <-. simpl.
        split; [reflexivity|]. exists zp. split; [reflexivity|].
        split; [reflexivity|].
        destruct (includes (requiredOf s) (fst kp)); simpl;
          [now apply (reverse_rejects_undefined (snd kp))|reflexivity].
    + apply mapThrow_throw in Em as (kp & Hin & Hf).
      exists kp. split; [exact Hin|].
      unfold fieldFor in Hf.
      destruct (vertexSchemaToZod (snd kp)); [discriminate|].
      simpl in Hf. now injection Hf as ->.
  - intros Hu Ht. now rewrite (concrete_dispatch s Hu), Ht.
Qed.





End Objects.

(* ===================================================================== *)
(** ** C2: property order on the forward path *)
(* ===================================================================== *)










(* ===================================================================== *)
(** ** C1: the round trip of the user object *)
(* ===================================================================== *)

Section RoundTrip.
Context {formats : StringFormats}.

(** C1: the object [{name: string, age: number min 10 max 100}], with its
    three descriptions, converts forward, the result converts back, and
    the validator obtained accepts [{name: "Bob", age: 55}] and rejects
    [{name: "Bob", age: 9}], as the original validator does. *)
Theorem round_trip_user_object :
  exists vertex reconstructedZod,
    zodToVertexSchema originalZod = Ok vertex
    /\ vertexSchemaToZod vertex = Ok reconstructedZod
    /\ accepts originalZod validData = true
    /\ accepts reconstructedZod validData = true
    /\ accepts originalZod invalidData = false
    /\ accepts reconstructedZod invalidData = false.
Proof.
  eexists. eexists.
  split; [vm_compute; reflexivity|].
  split; [vm_compute; reflexivity|].
  repeat split; vm_compute; reflexivity.
Qed.

End RoundTrip.

(* ===================================================================== *)
(** ** Further properties: what the validators of the leaves accept *)
(* ===================================================================== *)

Lemma nullableSet_spec s : nullableSet s = true <-> nullable s = Some true.
Proof.
  unfold nullableSet. destruct (nullable s) as [[]|]; split;
    try reflexivity; discriminate.
Qed.

Section Leaves.
Context {formats : StringFormats}.

Lemma accepts_made node s v :
  accepts (applyNullable (describeIfSet node (description s)) s) v
  = (nullableSet s && isNull v) || accepts node v.
Proof. now rewrite accepts_applyNullable, accepts_describeIfSet. Qed.

Lemma number_verdict (s : VertexSchema) (v : Value) :
  accepts (makeNumberZod s) v =
  match v with
  | VNum n => numberInRange s n
  | VNull => nullableSet s
  | _ => false
  end.
Proof.
  unfold makeNumberZod. cbv zeta. rewrite accepts_made.
  unfold numberInRange.
  destruct (type s) as [[]|], (minimum s), (maximum s), v;
    cbn [int min max number_ app accepts forallb numberCheckOk isNull];
    rewrite ?andb_true_r, ?andb_false_r, ?orb_false_r, ?andb_assoc;
    try reflexivity.
Qed.

(** X1: the validator of a NUMBER or INTEGER node accepts a number exactly
    when it is an integer (INTEGER only), not below [minimum] and not
    above [maximum], both bounds inclusive and each checked only when
    present; it accepts [null] exactly when the node is nullable and
    nothing else; with a maximum below the minimum no number passes. *)
Theorem number_node_verdict (s : VertexSchema) :
  (forall v, accepts (makeNumberZod s) v =
             match v with
             | VNum n => numberInRange s n
             | VNull => nullableSet s
             | _ => false
             end)
  /\ (forall lo hi, minimum s = Some lo -> maximum s = Some hi ->
        (hi < lo)%Q ->
        forall n, accepts (makeNumberZod s) (VNum n) = false)
  /\ (isUnionNode s = false ->
      type s = Some NUMBER \/ type s = Some INTEGER ->
      vertexSchemaToZod s = Ok (makeNumberZod s)).
Proof.
  split; [exact (number_verdict s)|]. split.
  - intros lo hi Hlo Hhi Hlt n. rewrite number_verdict.
    unfold numberInRange. rewrite Hlo, Hhi.
    destruct (Qle_bool lo n) eqn:E1; [|now rewrite andb_false_r].
    destruct (Qle_bool n hi) eqn:E2; [|now rewrite andb_false_r].
    apply Qle_bool_iff in E1, E2. exfalso.
    apply (Qlt_not_le _ _ Hlt). now apply Qle_trans with n.
  - intros Hu [Ht|Ht]; now rewrite (concrete_dispatch s Hu), Ht.
Qed.

(** X2: a node that is not a union validates values of the kind of its
    type only: whatever the converted validator accepts is a string for
    STRING, a number for NUMBER and INTEGER, a boolean for BOOLEAN, an
    array for ARRAY, an object for OBJECT, or is [null] on a nullable
    node; and a BOOLEAN node accepts both booleans. *)
Theorem concrete_node_kind (s : VertexSchema) (z : ZodTypeAny) :
  isUnionNode s = false ->
  vertexSchemaToZod s = Ok z ->
  (forall v, accepts z v = true ->
     (exists t, type s = Some t /\ kindMatches t v = true)
     \/ (v = VNull /\ nullable s = Some true))
  /\ (type s = Some BOOLEAN -> forall b, accepts z (VBool b) = true).
Proof.
  intros Hu. rewrite (concrete_dispatch s Hu).
  assert (Hnull : forall v, nullableSet s && isNull v = true ->
                            v = VNull /\ nullable s = Some true).
  { intros v H. apply andb_prop in H as [Hn Hv].
    split; [destruct v; try discriminate; reflexivity
           |now apply nullableSet_spec]. }
  assert (Hsplit : forall node v t,
             type s = Some t ->
             (accepts node v = true -> kindMatches t v = true) ->
             accepts (applyNullable (describeIfSet node (description s)) s) v
             = true ->
             (exists t, type s = Some t /\ kindMatches t v = true)
             \/ (v = VNull /\ nullable s = Some true)).
  { intros node v t Ht Hk. rewrite accepts_made.
    intros H. apply orb_prop in H as [H|H]; [right; now apply Hnull|].
    left. exists t. split; [exact Ht|now apply Hk]. }
  destruct (type s) as [[]|] eqn:Et.
  - intros [= <-]. split; [|discriminate].
    intros v. unfold makeStringZod.
    destruct (enum s) as [[|? [|? ?]]|]; cbv zeta;
      apply (Hsplit _ _ STRING eq_refl);
      (destruct (format s) as [f|]; [destruct (String.eqb f "date-time")|]);
      destruct v; try discriminate; reflexivity.
  - intros [= <-]. split; [|discriminate].
    intros v. rewrite number_verdict.
    destruct v; try discriminate.
    + intros Hn. right. split; [reflexivity|now apply nullableSet_spec].
    + intros _. left. exists NUMBER. split; reflexivity.
  - intros [= <-]. split; [|discriminate].
    intros v. rewrite number_verdict.
    destruct v; try discriminate.
    + intros Hn. right. split; [reflexivity|now apply nullableSet_spec].
    + intros _. left. exists INTEGER. split; reflexivity.
  - intros [= <-]. split.
    + intros v. unfold makeBooleanZod. cbv zeta.
      apply (Hsplit _ _ BOOLEAN eq_refl). destruct v; try discriminate.
      reflexivity.
    + intros _ b. unfold makeBooleanZod. cbv zeta. rewrite accepts_made.
      apply orb_true_r.
  - unfold makeArrayZod, makeArrayZodOver.
    destruct (items s) as [it|]; [|discriminate].
    destruct (vertexSchemaToZod it) as [ze|]; [|discriminate].
    cbn [Js.bind]. intros [= <-]. split; [|discriminate].
    intros v. cbv zeta. apply (Hsplit _ _ ARRAY eq_refl).
    destruct (minItems s), (maxItems s), v; try discriminate; reflexivity.
  - unfold makeObjectZod, makeObjectZodOver.
    destruct (properties s); cbv beta zeta;
      (destruct (fillShape _ _ _ _); [|discriminate]);
      cbn [Js.bind]; intros [= <-]; (split; [|discriminate]);
      intros v; apply (Hsplit _ _ OBJECT eq_refl);
      destruct v; try discriminate; reflexivity.
  - discriminate.
Qed.

(** X3: an ARRAY node with items converts exactly when its items do (the
    failure of the items is the failure of the array); the validator
    accepts an array exactly when its length is within [minItems] and
    [maxItems] (inclusive, each checked only when present) and every
    element passes the validator of the items; it accepts [null] exactly
    when the node is nullable, and nothing else. *)
Theorem array_node_verdict (s it : VertexSchema) :
  items s = Some it ->
  match vertexSchemaToZod it with
  | Throw m => makeArrayZod s = Throw m
  | Ok ze =>
      exists z,
        makeArrayZod s = Ok z
        /\ forall v,
            accepts z v =
            match v with
            | VArr elements =>
                lengthInRange s (lengthOf elements)
                && forallb (accepts ze) elements
            | VNull => nullableSet s
            | _ => false
            end
  end.
Proof.
  intros Hi. unfold makeArrayZod, makeArrayZodOver. rewrite Hi.
  destruct (vertexSchemaToZod it) as [ze|m]; [|reflexivity].
  cbn [Js.bind]. eexists. split; [reflexivity|].
  intros v. cbv zeta. rewrite accepts_made. unfold lengthInRange.
  destruct (minItems s), (maxItems s), v;
    cbn [min max array_ accepts isNull]; unfold lengthOk;
    cbn [andb orb];
    rewrite ?andb_true_r, ?andb_false_r, ?orb_false_r;
    reflexivity.
Qed.

End Leaves.

(* ===================================================================== *)
(** ** Further properties: objects *)
(* ===================================================================== *)

Section ObjectVerdicts.
Context {formats : StringFormats}.






End ObjectVerdicts.

Lemma fillShape_required recur r1 r2 entries :
  (forall k, In k (keys entries) -> includes r1 k = includes r2 k) ->
  forall shape,
    fillShape recur r1 entries shape = fillShape recur r2 entries shape.
Proof.
  induction entries as [|[k p] rest IH]; intros Hsame shape; [reflexivity|].
  cbn [fillShape]. rewrite (Hsame k) by (now left).
  destruct (recur p); cbn [Js.bind]; [|reflexivity].
  destruct (assign _ _ _); cbn [Js.bind]; [|reflexivity].
  apply IH. intros k' Hin. apply Hsame. now right.
Qed.

(** X6: [required] counts only through the keys of [properties]: two
    [required] lists that list the same property keys give the same
    conversion, so a name in [required] that is not a property is
    ignored, and an absent [required] is an empty one. *)
Theorem required_counts_for_property_keys (s : VertexSchema)
        (r1 r2 : list string) :
  (forall k, In k (keys (propertiesOf s)) -> includes r1 k = includes r2 k) ->
  makeObjectZod (setRequired (Some r1) s)
  = makeObjectZod (setRequired (Some r2) s)
  /\ makeObjectZod (setRequired None s)
     = makeObjectZod (setRequired (Some []) s).
Proof.
  intros Hsame. split; [|destruct s; reflexivity].
  unfold makeObjectZod, makeObjectZodOver, propertiesOf in *.
  destruct s as [t f d nu it e ps r ex po bs mi ma lo hi].
  unfold setRequired. projections. destruct ps as [ps|]; [|reflexivity].
  cbv zeta. now rewrite (fillShape_required vertexSchemaToZod r1 r2 ps Hsame).
Qed.

(* ===================================================================== *)
(** ** Further properties: failures, and what is never read or built *)
(* ===================================================================== *)

Lemma mapThrow_first {A B} (f : A -> Result B) pre c post m :
  Forall (fun x => isOk (f x) = true) pre ->
  f c = Throw m ->
  mapThrow f (pre ++ c :: post) = Throw m.
Proof.
  intros Hpre Hc. induction Hpre as [|x l Hx _ IH]; cbn [app mapThrow].
  - now rewrite Hc.
  - destruct (f x); [|discriminate]. now rewrite IH.
Qed.

Lemma fillShape_first recur req pre k c post m :
  ~ In "__proto__" (keys pre) ->
  Forall (fun kp => isOk (recur (snd kp)) = true) pre ->
  recur c = Throw m ->
  forall own,
    fillShape recur req (pre ++ (k, c) :: post) (mkShape None own) = Throw m.
Proof.
  intros Hproto Hpre Hc.
  induction Hpre as [|[k0 p0] l Hx _ IH]; intros own; cbn [app fillShape].
  - now rewrite Hc.
  - cbn [snd] in Hx. destruct (recur p0); [|discriminate].
    cbn [Js.bind]. unfold keys in Hproto. cbn [map fst In] in Hproto.
    rewrite assign_plain by (intros ->; apply Hproto; now left).
    cbn [Js.bind]. apply IH. intros Hin. apply Hproto. now right.
Qed.

(** X7: a union reports the failure of its first failing branch: when
    the branches before a branch all convert and that branch throws, the
    conversion of the union throws the same message, whatever follows. *)
Theorem union_reports_first_failure (s c : VertexSchema)
        (pre post : list VertexSchema) (m : string) :
  anyOf s = Some (pre ++ c :: post) ->
  Forall (fun b => isOk (vertexSchemaToZod b) = true) pre ->
  vertexSchemaToZod c = Throw m ->
  vertexSchemaToZod s = Throw m.
Proof.
  intros Ea Hpre Hc.
  assert (H : mapThrow vertexSchemaToZod (pre ++ c :: post) = Throw m)
    by (now apply mapThrow_first).
  rewrite vertexSchemaToZod_unfold, Ea.
  destruct pre; cbn [app] in *; now rewrite H.
Qed.

(** X8: an object reports the failure of its first failing property, in
    the key order of [properties], when no property before it has the key
    ["__proto__"] (after such a key the assignment of a later field can
    throw first, see [proto_then_getter_throws]). *)
Theorem object_reports_first_failure (s c : VertexSchema) (k : string)
        (pre post : list (string * VertexSchema)) (m : string) :
  properties s = Some (pre ++ (k, c) :: post) ->
  ~ In "__proto__" (keys pre) ->
  Forall (fun kp => isOk (vertexSchemaToZod (snd kp)) = true) pre ->
  vertexSchemaToZod c = Throw m ->
  makeObjectZod s = Throw m.
Proof.
  intros Ep Hproto Hpre Hc.
  unfold makeObjectZod, makeObjectZodOver, emptyShape. rewrite Ep.
  cbv zeta. rewrite fillShape_first with (m := m) by assumption.
  reflexivity.
Qed.

Section NeverOptional.
Context {formats : StringFormats}.

(** X9: no converted schema accepts [undefined]: at the top, in the
    items of an array or in the branches of a union a value is never
    optional; only the object loop makes a field optional. *)
Theorem converted_rejects_undefined (s : VertexSchema) (z : ZodTypeAny) :
  vertexSchemaToZod s = Ok z -> accepts z VUndefined = false.
Proof. exact (reverse_rejects_undefined s (z := z)). Qed.

End NeverOptional.

Lemma mapThrow_map {A B} (f : A -> Result B) (g : A -> A) xs :
  Forall (fun x => f (g x) = f x) xs ->
  mapThrow f (map g xs) = mapThrow f xs.
Proof.
  induction 1 as [|x l Hx _ IH]; [reflexivity|].
  cbn [map mapThrow]. now rewrite Hx, IH.
Qed.

Lemma fillShape_map recur req (g : VertexSchema -> VertexSchema) entries :
  Forall (fun kv => recur (g (snd kv)) = recur (snd kv)) entries ->
  forall shape,
    fillShape recur req (map (fun kv => (fst kv, g (snd kv))) entries) shape
    = fillShape recur req entries shape.
Proof.
  induction 1 as [|[k p] l Hx _ IH]; intros shape; [reflexivity|].
  cbn [map fillShape fst snd] in *. rewrite Hx.
  destruct (recur p); cbn [Js.bind]; [|reflexivity].
  destruct (assign _ _ _); cbn [Js.bind]; [apply IH|reflexivity].
Qed.

Lemma describeIfSet_kept z (o : option string) :
  describeIfSet z (if truthy o then o else None) = describeIfSet z o.
Proof.
  destruct o as [d|]; [|reflexivity].
  destruct (truthy (Some d)) eqn:Et; [reflexivity|].
  unfold describeIfSet. now rewrite Et.
Qed.

Lemma applyNullable_flag z (o : option bool) s s' :
  nullable s = o ->
  nullable s' = (if match o with Some true => true | _ => false end
                 then Some true else None) ->
  applyNullable z s' = applyNullable z s.
Proof.
  unfold applyNullable. intros -> ->. destruct o as [[]|]; reflexivity.
Qed.

(** X10: the conversion reads, for each kind of node and at every depth,
    only the fields kept by [relevant]: clearing all the others
    ([example], [propertyOrdering], the [type] and everything else on a
    union, [format] next to a non-empty [enum], any format other than
    ["date-time"], an empty [enum] or [anyOf], bounds that belong to
    another kind, an empty description, a [false] nullable flag) changes
    neither the node returned nor the error thrown. *)
Theorem conversion_reads_relevant_fields (s : VertexSchema) :
  vertexSchemaToZod (relevant s) = vertexSchemaToZod s.
Proof.
  induction s as [s IHitems IHprops IHany] using VertexSchema_ind.
  destruct s as [t f d nu it e ps r ex po bs mi ma lo hi].
  cbn [items properties anyOf] in IHitems, IHprops, IHany.
  rewrite (vertexSchemaToZod_unfold (mkVertexSchema _ _ _ _ _ _ _ _ _ _ _ _ _ _ _)).
  assert (Hd : forall z, describeIfSet z (if truthy d then d else None)
                         = describeIfSet z d) by (intros; apply describeIfSet_kept).
  assert (Hn : forall z s1 s2,
             nullable s1 = (if match nu with Some true => true | _ => false end
                            then Some true else None) ->
             nullable s2 = nu ->
             applyNullable z s1 = applyNullable z s2).
  { intros z s1 s2 H1 H2. now apply applyNullable_flag with nu. }
  destruct bs as [[|b bs]|].
  2:{ cbn [relevant anyOf]. rewrite vertexSchemaToZod_unfold. projections.
      cbn [map]. change (relevant b :: map relevant bs)
        with (map relevant (b :: bs)).
      rewrite (mapThrow_map vertexSchemaToZod relevant (IHany _ eq_refl)).
      destruct (mapThrow vertexSchemaToZod (b :: bs)); [|reflexivity].
      cbn [Js.bind]. unfold descriptionKept, nullableSet. projections.
      rewrite Hd. f_equal. now apply Hn. }
  all: destruct t as [[]|];
    [ (* STRING *)
      destruct e as [[|v [|v' l]]|]; cbn [relevant anyOf type enum];
      rewrite vertexSchemaToZod_unfold; projections;
      unfold makeStringZod, descriptionKept, nullableSet, hasDatetimeFormat;
      projections;
      try (destruct f as [f|]; [destruct (String.eqb f "date-time")|]);
      rewrite ?String.eqb_refl
    | (* NUMBER *)
      cbn [relevant anyOf type]; rewrite vertexSchemaToZod_unfold;
      projections; unfold makeNumberZod, descriptionKept, nullableSet;
      projections
    | (* INTEGER *)
      cbn [relevant anyOf type]; rewrite vertexSchemaToZod_unfold;
      projections; unfold makeNumberZod, descriptionKept, nullableSet;
      projections
    | (* BOOLEAN *)
      cbn [relevant anyOf type]; rewrite vertexSchemaToZod_unfold;
      projections; unfold makeBooleanZod, descriptionKept, nullableSet;
      projections
    | (* ARRAY *)
      cbn [relevant anyOf type items]; rewrite vertexSchemaToZod_unfold;
      projections;
      unfold makeArrayZod, makeArrayZodOver, descriptionKept, nullableSet;
      projections; destruct it as [it|]; [|reflexivity];
      rewrite (IHitems _ eq_refl);
      (destruct (vertexSchemaToZod it); [|reflexivity]); cbn [Js.bind]
    | (* OBJECT *)
      cbn [relevant anyOf type properties]; rewrite vertexSchemaToZod_unfold;
      projections;
      unfold makeObjectZod, makeObjectZodOver, descriptionKept, nullableSet;
      projections; cbv zeta; destruct ps as [ps|];
      [ rewrite (fillShape_map vertexSchemaToZod _ relevant
                               (IHprops _ eq_refl));
        (destruct (fillShape _ _ _ _); [|reflexivity])
      | ]; cbn [fillShape Js.bind]
    | (* no type *)
      reflexivity ].
  all: cbv zeta; rewrite Hd; f_equal; now apply Hn.
Qed.

Lemma builtCore_object d shape :
  builtCore (ZodObject d shape) = forallb (fun kf => fieldBuilt (snd kf)) shape.
Proof.
  cbn [builtCore]. induction shape as [|[k f] rest IH]; [reflexivity|].
  cbn [forallb snd]. rewrite <- IH. destruct f; reflexivity.
Qed.

Lemma builtCore_union d o os :
  builtCore (ZodUnion d (o :: os)) = forallb reverseBuilt (o :: os).
Proof.
  reflexivity.
Qed.

Lemma builtCore_describeIfSet z text :
  builtCore (describeIfSet z text) = builtCore z.
Proof.
  unfold describeIfSet. destruct text as [d|]; [|reflexivity].
  destruct (truthy (Some d)); [|reflexivity]. destruct z; reflexivity.
Qed.

Lemma builtCore_not_wrapped z :
  builtCore z = true -> reverseBuilt z = true /\ fieldBuilt z = true.
Proof. destruct z; try discriminate; intros H; split; exact H. Qed.

Lemma reverseBuilt_made node s :
  builtCore node = true ->
  reverseBuilt (applyNullable (describeIfSet node (description s)) s) = true.
Proof.
  intros H. rewrite <- (builtCore_describeIfSet node (description s)) in H.
  rewrite applyNullable_cases. destruct (nullableSet s); [exact H|].
  now apply builtCore_not_wrapped.
Qed.

Lemma reverseBuilt_field z :
  reverseBuilt z = true ->
  fieldBuilt z = true /\ fieldBuilt (optional z) = true.
Proof.
  intros H. split; [|exact H].
  destruct z; try exact H. discriminate H.
Qed.

Lemma set_built (shape : list (string * ZodTypeAny)) key field :
  forallb (fun kf => fieldBuilt (snd kf)) shape = true ->
  fieldBuilt field = true ->
  forallb (fun kf => fieldBuilt (snd kf)) (Js.set shape key field) = true.
Proof.
  intros Hs Hf. induction shape as [|[k w] rest IH]; cbn [Js.set forallb snd].
  - now rewrite Hf.
  - cbn [forallb snd] in Hs. apply andb_prop in Hs as [Hw Hrest].
    destruct (String.eqb k key); cbn [forallb snd].
    + now rewrite Hf, Hrest.
    + now rewrite Hw, IH.
Qed.

Lemma fillShape_built req entries :
  Forall (fun kp => forall z, vertexSchemaToZod (snd kp) = Ok z ->
                              reverseBuilt z = true) entries ->
  forall shape out,
    forallb (fun kf => fieldBuilt (snd kf)) (ownFields shape) = true ->
    fillShape vertexSchemaToZod req entries shape = Ok out ->
    forallb (fun kf => fieldBuilt (snd kf)) (ownFields out) = true.
Proof.
  induction 1 as [|[k p] l Hp _ IH]; intros shape out Hs;
    cbn [fillShape].
  - now intros [= <-].
  - cbn [snd] in Hp.
    destruct (vertexSchemaToZod p) as [z|]; [|discriminate].
    cbn [Js.bind].
    destruct (assign _ _ _) as [next|] eqn:Ea; [|discriminate].
    cbn [Js.bind]. apply IH. unfold assign in Ea.
    destruct (String.eqb k "__proto__"); [now injection Ea as <-|].
    destruct (assignError shape k); [discriminate|]. injection Ea as <-.
    cbn [ownFields]. apply set_built; [exact Hs|].
    destruct (@reverseBuilt_field z (Hp z eq_refl)) as [H1 H2].
    destruct (includes req k); assumption.
Qed.

(** X11: whatever the input, a node returned by the conversion is built
    from string nodes with no check or the date-time check alone, number
    nodes with at most an integer, a minimum and a maximum check, boolean
    nodes, arrays, objects, enumerations of two values or more, string
    literals and non-empty unions, under at most one nullable wrapper and,
    for an object field, at most one optional wrapper; it never holds a
    date check, an exact array length, a null, lazy or discriminated-union
    node, or a literal that is not a string. *)
Theorem conversion_builds_known_nodes (s : VertexSchema) (z : ZodTypeAny) :
  vertexSchemaToZod s = Ok z -> reverseBuilt z = true.
Proof.
  revert z.
  induction s as [s IHitems IHprops IHany] using VertexSchema_ind.
  intros z. destruct (isUnionNode s) eqn:Hu.
  - destruct (union_dispatch s Hu) as (bs & Ea & _ & ->).
    specialize (IHany _ Ea).
    destruct (mapThrow vertexSchemaToZod bs) as [zs|] eqn:Em; [|discriminate].
    cbn [Js.bind]. intros [= <-]. apply reverseBuilt_made.
    apply mapThrow_ok in Em.
    unfold isUnionNode in Hu. rewrite Ea in Hu.
    destruct Em as [|b o bs' os Hb Hrest]; [discriminate|].
    unfold union_. rewrite builtCore_union.
    assert (Hall : Forall2 (fun x y => vertexSchemaToZod x = Ok y)
                           (b :: bs') (o :: os)) by (now constructor).
    clear Hb Hrest Ea Hu.
    induction Hall as [|x y l l' Hxy _ IH]; [reflexivity|].
    inversion IHany; subst. cbn [forallb].
    rewrite (H1 _ Hxy). now apply IH.
  - rewrite (concrete_dispatch s Hu). clear IHany.
    destruct (type s) as [[]|] eqn:Et; try discriminate.
    + intros [= <-]. unfold makeStringZod.
      destruct (enum s) as [[|? [|? ?]]|]; cbv zeta;
        apply reverseBuilt_made; try reflexivity;
        (destruct (format s) as [f|];
         [destruct (String.eqb f "date-time")|]; reflexivity).
    + intros [= <-]. unfold makeNumberZod. cbv zeta.
      apply reverseBuilt_made. rewrite Et.
      destruct (minimum s), (maximum s); reflexivity.
    + intros [= <-]. unfold makeNumberZod. cbv zeta.
      apply reverseBuilt_made. rewrite Et.
      destruct (minimum s), (maximum s); reflexivity.
    + intros [= <-]. now apply reverseBuilt_made.
    + unfold makeArrayZod, makeArrayZodOver.
      destruct (items s) as [it|]; [|discriminate].
      specialize (IHitems _ eq_refl).
      destruct (vertexSchemaToZod it) as [ze|]; [|discriminate].
      cbn [Js.bind]. intros [= <-]. cbv zeta. apply reverseBuilt_made.
      specialize (IHitems _ eq_refl).
      destruct (minItems s), (maxItems s); exact IHitems.
    + unfold makeObjectZod, makeObjectZodOver.
      destruct (properties s) as [ps|]; cbv beta zeta.
      * specialize (IHprops _ eq_refl).
        destruct (fillShape _ _ ps emptyShape) as [shape|] eqn:Ef;
          [|discriminate].
        cbn [Js.bind]. intros [= <-]. apply reverseBuilt_made.
        unfold object_. rewrite builtCore_object.
        now apply (fillShape_built _ IHprops emptyShape eq_refl Ef).
      * cbn [fillShape Js.bind]. intros [= <-]. now apply reverseBuilt_made.
Qed.

End Library.

(* ===================================================================== *)
(** ** The theorems at concrete schemas *)
(* ===================================================================== *)

(** From here on validators are run with the library's own formats and
    getters. *)
#[local] Existing Instance Zod3.formats.
#[local] Existing Instance Zod3.prototypes.

(** C3, as worded, fails on a node that carries both [type: ARRAY] (with no
    [items]) and a non-empty [anyOf]: the traversal reaches it, it is an
    ARRAY without items, and yet the conversion returns a union. *)
Lemma reverse_throws_iff_worded_defect_fails :
  ~ ((exists m, vertexSchemaToZod arrayTypedUnion = Throw m) <->
     (exists n, Reached arrayTypedUnion n /\ defectAsWorded n = true)).
Proof.
  intros [_ H].
  destruct H as [m Hm].
  - exists arrayTypedUnion. split; [apply reached_root|reflexivity].
  - vm_compute in Hm. discriminate Hm.
Qed.

Lemma reverse_throws_iff_malformed_at_array :
  protoFree arrayWithoutItemsSchema = true
  /\ vertexSchemaToZod arrayWithoutItemsSchema
     = Throw "ARRAY type schema must have 'items'"
  /\ exists n, Reached arrayWithoutItemsSchema n /\ malformed n = true.
Proof.
  split; [reflexivity|]. split; [reflexivity|].
  destruct (@reverse_throws_iff_malformed Zod3.prototypes
              arrayWithoutItemsSchema eq_refl) as [Hiff _].
  apply Hiff. eexists. reflexivity.
Defined.

(** After the key ["__proto__"] the shape inherits from a validator, whose
    [description] has a getter and no setter: the assignment of the field
    ["description"] throws, although no node of the tree is malformed. *)
Example proto_then_getter_throws :
  vertexSchemaToZod protoThenDescription
  = Throw "Cannot set property description of #<ZodType> which has only a getter"
  /\ protoFree protoThenDescription = false
  /\ forall n, Reached protoThenDescription n -> malformed n = false.
Proof.
  split; [reflexivity|]. split; [reflexivity|].
  intros n Hn. apply reached_inv in Hn as [->|(c & Hc & Hn)]; [reflexivity|].
  cbn in Hc. destruct Hc as [<-|[<-|[]]];
    apply reached_inv in Hn as [->|(c' & [] & _)]; reflexivity.
Qed.


Lemma anyOf_converts_to_union_at_stringOrNumber :
  anyOf stringOrNumber = Some [typed STRING None; typed NUMBER None]
  /\ (forall t, vertexSchemaToZod (setType t stringOrNumber)
                = vertexSchemaToZod stringOrNumber)
  /\ isOk (vertexSchemaToZod stringOrNumber) = true.
Proof.
  pose proof (@anyOf_converts_to_union Zod3.prototypes Zod3.formats stringOrNumber _ _ eq_refl)
    as (Htype & Hok & _).
  split; [reflexivity|]. split; [exact Htype|].
  apply Hok. repeat constructor.
Defined.

Lemma string_enum_converts_at_colors :
  enum colorEnum = Some ["RED"; "GREEN"; "BLUE"]
  /\ makeStringZod colorEnum
     = ZodEnum (Some "Color enum") ["RED"; "GREEN"; "BLUE"]
  /\ forall x, accepts (makeStringZod colorEnum) (VStr x) = true
               <-> In x ["RED"; "GREEN"; "BLUE"].
Proof.
  pose proof (@string_enum_converts Zod3.prototypes Zod3.formats colorEnum _ eq_refl)
    as (Hmany & _ & _).
  split; [reflexivity|].
  apply Hmany. simpl. lia.
Defined.

Lemma object_fields_convert_at_person :
  ~ In "__proto__" (keys (propertiesOf personObject))
  /\ NoDup (keys (propertiesOf personObject))
  /\ (forall po, makeObjectZod (setPropertyOrdering po personObject)
                 = makeObjectZod personObject)
  /\ isOk (makeObjectZod personObject) = true.
Proof.
  assert (Hproto : ~ In "__proto__" (keys (propertiesOf personObject))).
  { simpl. intuition discriminate. }
  assert (Hnd : NoDup (keys (propertiesOf personObject))).
  { repeat constructor; simpl; intuition discriminate. }
  pose proof (@object_fields_convert Zod3.prototypes Zod3.formats
                personObject Hproto Hnd) as (Hpo & Hok & _).
  split; [exact Hproto|]. split; [exact Hnd|]. split; [exact Hpo|].
  apply Hok. repeat constructor.
Defined.


Lemma nullable_is_applied_last_at_string :
  exists inner,
    vertexSchemaToZod (setNullable None nullableString) = Ok inner
    /\ zdescription inner = descriptionKept nullableString
    /\ (nullable nullableString = Some true ->
        ZodNullable None (ZodString None [])
        = ZodNullable (descriptionKept nullableString) inner
        /\ accepts (ZodNullable None (ZodString None [])) VNull = true
        /\ forall v, accepts (ZodNullable None (ZodString None [])) v
                     = isNull v || accepts inner v)
    /\ (nullable nullableString <> Some true ->
        ZodNullable None (ZodString None []) = inner).
Proof.
  exact (@nullable_is_applied_last Zod3.prototypes Zod3.formats nullableString
           (ZodNullable None (ZodString None [])) eq_refl).
Defined.

Lemma string_format_converts_at_datetime :
  enum datetimeString = None
  /\ format datetimeString = Some "date-time"
  /\ makeStringZod datetimeString
     = ZodString (Some "A datetime string") [CkDatetime]
  /\ forall x, accepts (makeStringZod datetimeString) (VStr x)
               = Zod3.datetime x.
Proof.
  pose proof (@string_format_converts Zod3.prototypes Zod3.formats datetimeString eq_refl)
    as (Hdt & _ & _).
  split; [reflexivity|]. split; [reflexivity|].
  exact (Hdt eq_refl).
Defined.

Lemma empty_enum_is_ignored_at_string :
  enum emptyEnumString = Some []
  /\ makeStringZod emptyEnumString
     = makeStringZod (setEnum None emptyEnumString)
  /\ forall x, accepts (makeStringZod emptyEnumString) (VStr x) = true.
Proof.
  pose proof (@empty_enum_is_ignored Zod3.prototypes Zod3.formats emptyEnumString eq_refl)
    as (Hsame & _ & Hacc & _).
  split; [reflexivity|]. split; [exact Hsame|exact Hacc].
Defined.

Lemma single_branch_union_at_string :
  anyOf onlyString = Some [typed STRING None]
  /\ vertexSchemaToZod onlyString
     = Ok (ZodUnion (Some "one branch") [ZodString None []])
  /\ forall v, accepts (ZodUnion (Some "one branch") [ZodString None []]) v
               = accepts (ZodString None []) v.
Proof.
  pose proof (@single_branch_union Zod3.prototypes Zod3.formats onlyString _ eq_refl)
    as (Hconv & Hacc & _).
  split; [reflexivity|]. split; [exact Hconv|exact Hacc].
Defined.

Lemma concrete_node_kind_at_boolean :
  (forall v,
     accepts (ZodBoolean (Some "A boolean value")) v = true ->
     (exists t, type booleanField = Some t /\ kindMatches t v = true)
     \/ (v = VNull /\ nullable booleanField = Some true))
  /\ (type booleanField = Some BOOLEAN ->
      forall b, accepts (ZodBoolean (Some "A boolean value")) (VBool b) = true).
Proof.
  exact (@concrete_node_kind Zod3.prototypes Zod3.formats booleanField _ eq_refl eq_refl).
Defined.

Lemma array_node_verdict_at_numbers :
  exists z,
    makeArrayZod numberArray = Ok z
    /\ forall v,
        accepts z v =
        match v with
        | VArr elements =>
            lengthInRange numberArray (lengthOf elements)
            && forallb (accepts (ZodNumber None [])) elements
        | VNull => nullableSet numberArray
        | _ => false
        end.
Proof.
  exact (@array_node_verdict Zod3.prototypes Zod3.formats numberArray _ eq_refl).
Defined.




Lemma required_counts_for_property_keys_at_person :
  makeObjectZod (setRequired (Some ["name"; "ghost"; "age"]) personObject)
  = makeObjectZod (setRequired (Some ["name"; "age"]) personObject).
Proof.
  apply (@required_counts_for_property_keys Zod3.prototypes personObject
           ["name"; "ghost"; "age"] ["name"; "age"]).
  intros k [<-|[<-|[<-|[]]]]; reflexivity.
Defined.

Lemma union_reports_first_failure_at_broken :
  vertexSchemaToZod brokenUnion = Throw "ARRAY type schema must have 'items'".
Proof.
  apply (@union_reports_first_failure Zod3.prototypes brokenUnion (typed ARRAY None)
           [typed STRING None] [typed NUMBER None]);
    [reflexivity|repeat constructor|reflexivity].
Defined.

Lemma object_reports_first_failure_at_broken :
  makeObjectZod brokenObject
  = Throw "Unsupported or missing schema.type: undefined".
Proof.
  apply (@object_reports_first_failure Zod3.prototypes brokenObject
           (mkVertexSchema None None None None None None None None None
                           None None None None None None)
           "b" [("a", typed STRING None)] [("c", typed ARRAY None)]);
    [reflexivity|simpl; intuition discriminate|repeat constructor
    |reflexivity].
Defined.

Lemma converted_rejects_undefined_at_person :
  accepts personZod VUndefined = false.
Proof.
  exact (@converted_rejects_undefined Zod3.prototypes Zod3.formats personObject personZod
           eq_refl).
Defined.

Lemma conversion_builds_known_nodes_at_person :
  reverseBuilt personZod = true.
Proof.
  exact (@conversion_builds_known_nodes Zod3.prototypes personObject personZod eq_refl).
Defined.

(* ===================================================================== *)
(** ** The expectations of the test suite *)
(* ===================================================================== *)

Example datetime_iso : Zod3.datetime "2024-03-09T14:05:59.123Z" = true.
Proof. reflexivity. Qed.
Example datetime_no_fraction : Zod3.datetime "2024-02-29T00:00:00Z" = true.
Proof. reflexivity. Qed.
Example datetime_not_leap : Zod3.datetime "2023-02-29T00:00:00Z" = false.
Proof. reflexivity. Qed.
Example datetime_date_only : Zod3.datetime "2024-03-09" = false.
Proof. reflexivity. Qed.
Example datetime_word : Zod3.datetime "hello" = false.
Proof. reflexivity. Qed.
Example date_plain : Zod3.date "2024-03-09" = true.
Proof. reflexivity. Qed.

Example test_datetime_string :
  vertexSchemaToZod datetimeString
  = Ok (ZodString (Some "A datetime string") [CkDatetime])
  /\ verdict datetimeString (VStr "2024-03-09T14:05:59.123Z") = Ok true
  /\ verdict datetimeString (VStr "hello") = Ok false
  /\ verdict dateString (VStr "hello") = Ok true.
Proof. repeat split; reflexivity. Qed.

Example test_bounded_number :
  verdict boundedNumber (VNum 1) = Ok false
  /\ verdict boundedNumber (VNum 2) = Ok true
  /\ verdict boundedNumber (VNum 4) = Ok false.
Proof. repeat split; reflexivity. Qed.

Example test_bounded_integer :
  verdict boundedInteger (VNum 5) = Ok true
  /\ verdict boundedInteger (VNum (51 # 10)) = Ok false.
Proof. repeat split; reflexivity. Qed.

Example test_enum_and_literal :
  vertexSchemaToZod colorEnum
  = Ok (ZodEnum (Some "Color enum") ["RED"; "GREEN"; "BLUE"])
  /\ verdict colorEnum (VStr "RED") = Ok true
  /\ verdict colorEnum (VStr "PURPLE") = Ok false
  /\ vertexSchemaToZod singleEnum
     = Ok (ZodLiteral None (LitString "ONE_VALUE_ONLY"))
  /\ verdict singleEnum (VStr "ONE_VALUE_ONLY") = Ok true
  /\ verdict singleEnum (VStr "foo") = Ok false.
Proof. repeat split; reflexivity. Qed.

Example test_person_object :
  vertexSchemaToZod personObject
  = Ok (ZodObject (Some "Person object")
          [("name", ZodString None []);
           ("age", ZodNumber None [CkInt]);
           ("nick", ZodOptional None (ZodString None []))])
  /\ verdict personObject
       (VObj [("name", VStr "John"); ("age", VNum 25)]) = Ok true
  /\ verdict personObject (VObj [("age", VNum 25)]) = Ok false.
Proof. repeat split; reflexivity. Qed.

(** An optional property named like a method of [Object.prototype] is
    never missing: the validator reads the inherited function and rejects
    it, unless the object has an own string under the key. *)
Example test_inherited_method_is_read :
  verdict constructorObject (VObj []) = Ok false
  /\ verdict constructorObject (VObj [("constructor", VStr "Object")])
     = Ok true
  /\ verdict constructorObject (VObj [("constructor", VUndefined)])
     = Ok true.
Proof. repeat split; reflexivity. Qed.

(** The property under ["__proto__"] leaves no field behind, required or
    not. *)
Example test_proto_property :
  vertexSchemaToZod protoObject = Ok (ZodObject None [])
  /\ verdict protoObject (VObj []) = Ok true
  /\ verdict protoObject (VObj [("__proto__", VNum 1)]) = Ok true.
Proof. repeat split; reflexivity. Qed.

Example test_nested_object :
  verdict nestedObject
    (VObj [("user", VObj [("id", VNum 1); ("username", VStr "test")])])
  = Ok true.
Proof. reflexivity. Qed.

Example test_number_array :
  verdict numberArray (VArr []) = Ok false
  /\ verdict numberArray (VArr [VNum 1]) = Ok true
  /\ verdict numberArray (VArr [VNum 1; VNum 2; VNum 3]) = Ok true
  /\ verdict numberArray (VArr [VNum 1; VNum 2; VNum 3; VNum 4]) = Ok false.
Proof. repeat split; reflexivity. Qed.

Example test_array_without_items :
  vertexSchemaToZod arrayWithoutItemsSchema
  = Throw "ARRAY type schema must have 'items'".
Proof. reflexivity. Qed.

Example test_union :
  vertexSchemaToZod stringOrNumber
  = Ok (ZodUnion (Some "Union of string or number")
          [ZodString None []; ZodNumber None []])
  /\ verdict stringOrNumber (VStr "hello") = Ok true
  /\ verdict stringOrNumber (VNum 123) = Ok true
  /\ verdict stringOrNumber (VObj []) = Ok false.
Proof. repeat split; reflexivity. Qed.

Example test_nullable :
  verdict nullableString VNull = Ok true
  /\ verdict nullableString (VStr "non-null") = Ok true.
Proof. repeat split; reflexivity. Qed.

Example test_typed_union_is_a_union :
  vertexSchemaToZod arrayTypedUnion = Ok (ZodUnion None [ZodString None []]).
Proof. reflexivity. Qed.

Example test_forward_record :
  zodToVertexSchema recordZod = Ok recordVertex.
Proof. reflexivity. Qed.
